(** * phrase_pair_db: a shallow embedding of [database.py]

    The module [database.py] defines three classes: [TransPair] (a
    two-element [UserList] of sentences), [TransList] (a [UserList] of
    [TransPair]s without duplicates) and [TransDatabase] (a [dict] from list
    names to [TransList]s with an [info] attribute), plus the JSON and
    spreadsheet codecs of [TransDatabase].

    Python is dynamically typed and the checks of the module are run-time
    type tests, so the objects are embedded as one type [value]; exceptions
    are an explicit [result]; methods that mutate [self] are functions from
    the state of [self] to an outcome and the state afterwards. *)

From Stdlib Require Import ZArith List String Ascii Bool Lia DecimalString.
Import ListNotations.
Open Scope string_scope.
Open Scope Z_scope.
Open Scope list_scope.

#[local] Set Warnings "-register-all".

(** ** Python objects *)

(** The objects the module handles.  A [dict] keeps its insertion order, so
    it is an association list with unique keys; only [str] keys occur (the
    keyword arguments of the constructor, JSON objects, the database itself).
    A [TransPair] is a [UserList] whose [data] always has two items: the
    constructor stores [[item0, item1]] and [__getattribute__] hides every
    method that would change the length. *)
Inductive value : Type :=
| VNone
| VInt (z : Z)
| VStr (s : string)
| VList (l : list value)
| VDict (d : list (string * value))
| VTransPair (item0 item1 : value)
| VTransList (data : list value).

Inductive exn : Type :=
| TypeError
| ValueError
| KeyError
| IndexError
| FileNotFoundError
| BadZipFile.

Inductive result (A : Type) : Type :=
| Ok (a : A)
| Raise (e : exn).

Arguments Ok {A} a.
Arguments Raise {A} e.

Definition bind {A B : Type} (r : result A) (k : A -> result B) : result B :=
  match r with
  | Ok a => k a
  | Raise e => Raise e
  end.

Notation "x <- r ;; k" := (bind r (fun x => k))
  (at level 61, r at next level, right associativity).

(** A method that may mutate [self]: the outcome and the state of [self]
    after the call, also when the call raises. *)
Definition method (S A : Type) : Type := S -> result A * S.

Definition mret {S A : Type} (a : A) : method S A := fun s => (Ok a, s).

Definition mraise {S A : Type} (e : exn) : method S A := fun s => (Raise e, s).

Definition mbind {S A B : Type} (m : method S A) (k : A -> method S B)
  : method S B :=
  fun s => match m s with
           | (Ok a, s') => k a s'
           | (Raise e, s') => (Raise e, s')
           end.

(** [for x in xs: body(x)] where [body] mutates [self]; the loop stops at the
    first exception. *)
Fixpoint for_each {S A : Type} (body : A -> method S unit) (xs : list A)
  : method S unit :=
  match xs with
  | [] => mret tt
  | x :: rest => mbind (body x) (fun _ => for_each body rest)
  end.

(** *** Built-in operations *)

Definition isinstance_str (v : value) : bool :=
  match v with VStr _ => true | _ => false end.

Definition isinstance_TransPair (v : value) : bool :=
  match v with VTransPair _ _ => true | _ => false end.

Definition isinstance_TransList (v : value) : bool :=
  match v with VTransList _ => true | _ => false end.

Definition is_None (v : value) : bool :=
  match v with VNone => true | _ => false end.

(** The [data] a list-like object compares by: [UserList.__eq__] compares
    [self.data] with the other operand, cast to its [data] when it is a
    [UserList] too; a plain list defers to the [UserList] operand. *)
Definition seq_data (v : value) : option (list value) :=
  match v with
  | VList l => Some l
  | VTransPair a b => Some [a; b]
  | VTransList l => Some l
  | _ => None
  end.

Definition all2 {A B : Type} (f : A -> B -> bool) : list A -> list B -> bool :=
  fix go (xs : list A) (ys : list B) : bool :=
    match xs, ys with
    | [], [] => true
    | x :: xs', y :: ys' => f x y && go xs' ys'
    | _, _ => false
    end.

Fixpoint assoc {A : Type} (k : string) (d : list (string * A)) : option A :=
  match d with
  | [] => None
  | (k', v) :: rest => if String.eqb k k' then Some v else assoc k rest
  end.

(** Python's [==] on the embedded objects. *)
Fixpoint py_eq (a b : value) {struct a} : bool :=
  match a with
  | VNone => is_None b
  | VInt x => match b with VInt y => Z.eqb x y | _ => false end
  | VStr x => match b with VStr y => String.eqb x y | _ => false end
  | VList l =>
      match seq_data b with
      | Some l' => all2 py_eq l l'
      | None => false
      end
  | VTransList l =>
      match seq_data b with
      | Some l' => all2 py_eq l l'
      | None => false
      end
  | VTransPair x y =>
      match seq_data b with
      | Some [x'; y'] => py_eq x x' && py_eq y y'
      | _ => false
      end
  | VDict d =>
      match b with
      | VDict d' =>
          Nat.eqb (List.length d) (List.length d')
          && forallb (fun kv => match assoc (fst kv) d' with
                                | Some v' => py_eq (snd kv) v'
                                | None => false
                                end) d
      | _ => false
      end
  end.

(** Truth value of an object ([bool(v)]); a [TransPair] always has length
    two, so it is true. *)
Definition truthy (v : value) : bool :=
  match v with
  | VNone => false
  | VInt z => negb (Z.eqb z 0)
  | VStr s => negb (String.eqb s EmptyString)
  | VList l => negb (Nat.eqb (List.length l) 0)
  | VDict d => negb (Nat.eqb (List.length d) 0)
  | VTransPair _ _ => true
  | VTransList l => negb (Nat.eqb (List.length l) 0)
  end.

(** [a and b]: the first operand when it is false, else the second. *)
Definition py_and (a b : value) : value :=
  if truthy a then b else a.

(** ** TransPair *)

Module TransPair.

(** [TransPair.__init__(item0, item1)]. *)
Definition init (item0 item1 : value) : result value :=
  if negb (isinstance_str item0) && negb (isinstance_str item1) then
    Raise TypeError
  else if py_eq (py_and item0 item1) (VStr EmptyString) then
    Raise ValueError
  else
    Ok (VTransPair item0 item1).

(** The state of a [TransPair]: the two items of its [data]. *)
Definition state : Type := (value * value)%type.

(** [TransPair.__setitem__(key, value)] for an integer [key]: the two
    checks on [value], then [self.data[key] = value], which counts a
    negative key from the end and refuses a key out of range. *)
Definition setitem (key : Z) (v : value) : method state unit :=
  fun self =>
    match v with
    | VStr s =>
        if Nat.eqb (String.length s) 0 then (Raise ValueError, self)
        else
          let i := if key <? 0 then key + 2 else key in
          if i =? 0 then (Ok tt, (v, snd self))
          else if i =? 1 then (Ok tt, (fst self, v))
          else (Raise IndexError, self)
    | _ => (Raise TypeError, self)
    end.

(** [TransPair.switch()]: [self.data.reverse()]. *)
Definition switch : method state unit :=
  fun self => (Ok tt, (snd self, fst self)).

End TransPair.

(** *** Subscripts and iteration *)

(** A Python [str] is a sequence of characters; a [string] here is the
    sequence of its characters, one [ascii] per character (code points below
    256, which covers the sentences used below). *)
Fixpoint chars (s : string) : list value :=
  match s with
  | EmptyString => []
  | String c rest => VStr (String c EmptyString) :: chars rest
  end.

(** [l[i]] on a list: negative indices count from the end. *)
Definition list_getitem (l : list value) (i : Z) : result value :=
  let n := Z.of_nat (List.length l) in
  let j := if i <? 0 then i + n else i in
  if (j <? 0) || (n <=? j) then Raise IndexError
  else match nth_error l (Z.to_nat j) with
       | Some x => Ok x
       | None => Raise IndexError
       end.

(** [v[i]] for an integer [i]: a [dict] with [str] keys has no such key,
    [None] and integers are not subscriptable. *)
Definition getitem (v : value) (i : Z) : result value :=
  match v with
  | VList l => list_getitem l i
  | VTransList l => list_getitem l i
  | VTransPair a b => list_getitem [a; b] i
  | VStr s => list_getitem (chars s) i
  | VDict _ => Raise KeyError
  | VNone => Raise TypeError
  | VInt _ => Raise TypeError
  end.

(** [v[k]] for a [str] key [k]: only a [dict] accepts it. *)
Definition getitem_str (v : value) (k : string) : result value :=
  match v with
  | VDict d => match assoc k d with
               | Some x => Ok x
               | None => Raise KeyError
               end
  | _ => Raise TypeError
  end.

(** The items [for x in v] runs through. *)
Definition iterate (v : value) : result (list value) :=
  match v with
  | VList l => Ok l
  | VTransList l => Ok l
  | VTransPair a b => Ok [a; b]
  | VStr s => Ok (chars s)
  | VDict d => Ok (map (fun kv => VStr (fst kv)) d)
  | VNone => Raise TypeError
  | VInt _ => Raise TypeError
  end.

(** ** TransList *)

Module TransList.

(** The state of a [TransList] is its [data], the list [UserList] wraps. *)
Definition state : Type := list value.

(** [UserList.__contains__]: [item in self.data]. *)
Definition contains (self : state) (item : value) : bool :=
  existsb (fun x => py_eq x item) self.

(** [TransList.append(tp_key)]. *)
Definition append (tp_key : value) : method state unit :=
  fun self =>
    if negb (isinstance_TransPair tp_key) then (Raise TypeError, self)
    else if contains self tp_key then (Raise KeyError, self)
    else (Ok tt, self ++ [tp_key]).

(** [TransList.__init__( *args )]: starts from the empty [UserList] and
    appends every argument; an exception of [append] leaves the constructor. *)
Definition init (args : list value) : result value :=
  match for_each append args [] with
  | (Ok _, data) => Ok (VTransList data)
  | (Raise e, _) => Raise e
  end.

(** [list.pop(index)], which [UserList.pop] forwards to. *)
Definition list_pop (index : Z) : method state value :=
  fun data =>
    let n := Z.of_nat (List.length data) in
    let i := if index <? 0 then index + n else index in
    if (i <? 0) || (n <=? i) then (Raise IndexError, data)
    else match nth_error data (Z.to_nat i) with
         | Some x =>
             (Ok x, firstn (Z.to_nat i) data ++ skipn (S (Z.to_nat i)) data)
         | None => (Raise IndexError, data)
         end.

(** The default of [index] in [pop(self, index=-1)]. *)
Definition pop_default_index : Z := -1.

(** [TransList.pop(index)]: the body is the single statement
    [super(TransList, self).pop(index)]; its value is dropped and the method
    falls off its end, which returns [None]. *)
Definition pop (index : Z) : method state value :=
  mbind (list_pop index) (fun _ => mret VNone).

(** The first loop of [get_translation]:
    [for transpair in self: if transpair[0] == sentence: return transpair[1]].
    [Some v] is the [return v]; [None] is the loop running to its end. *)
Fixpoint search_first (sentence : value) (self : state)
  : result (option value) :=
  match self with
  | [] => Ok None
  | transpair :: rest =>
      x <- getitem transpair 0 ;;
      if py_eq x sentence then
        y <- getitem transpair 1 ;; Ok (Some y)
      else search_first sentence rest
  end.

(** The second loop:
    [for transpair in self: if transpair[1] == sentence: return transpair[0]]. *)
Fixpoint search_second (sentence : value) (self : state)
  : result (option value) :=
  match self with
  | [] => Ok None
  | transpair :: rest =>
      x <- getitem transpair 1 ;;
      if py_eq x sentence then
        y <- getitem transpair 0 ;; Ok (Some y)
      else search_second sentence rest
  end.

(** [TransList.get_translation(sentence, hint)]; falling off the end
    returns [None]. *)
Definition get_translation (self : state) (sentence : value) (hint : Z)
  : result value :=
  r1 <- (if (hint =? 0) || (hint =? 1) then search_first sentence self
         else Ok None) ;;
  match r1 with
  | Some v => Ok v
  | None =>
      r2 <- (if (hint =? 0) || (hint =? 2) then search_second sentence self
             else Ok None) ;;
      match r2 with
      | Some v => Ok v
      | None => Ok VNone
      end
  end.



(** [TransList.extend(other)]: [for trans_pair in other:
    self.append(trans_pair)]. *)
Definition extend (other : value) : method state unit :=
  fun self =>
    match iterate other with
    | Raise e => (Raise e, self)
    | Ok trans_pairs => for_each append trans_pairs self
    end.

(** [list.remove(x)]: without the first item equal to [x], if there is
    one. *)
Fixpoint list_remove (x : value) (data : list value) : option (list value) :=
  match data with
  | [] => None
  | y :: rest =>
      if py_eq y x then Some rest
      else match list_remove x rest with
           | Some rest' => Some (y :: rest')
           | None => None
           end
  end.

(** [TransList.remove(tp_key)]; [list.remove] raises [ValueError] when
    nothing equals [tp_key]. *)
Definition remove (tp_key : value) : method state unit :=
  fun self =>
    match list_remove tp_key self with
    | Some data => (Ok tt, data)
    | None => (Raise ValueError, self)
    end.

End TransList.

(** ** Files *)

(** A worksheet as [iter_rows(min_row=1, max_col=2, values_only=True)] sees
    it: its title and, row by row from the top, the values of columns A and
    B ([None] for an empty cell). *)
Record worksheet : Type := {
  title : string;
  rows : list (value * value)
}.

Definition workbook : Type := list worksheet.

(** What a path holds: a text file or a spreadsheet. *)
Inductive file : Type :=
| TextFile (text : string)
| XlsxFile (wb : workbook).

Definition filesystem : Type := list (string * file).

(** [d[k] = v] on a [dict]: an existing key keeps its position. *)
Fixpoint dict_set {A : Type} (d : list (string * A)) (k : string) (v : A)
  : list (string * A) :=
  match d with
  | [] => [(k, v)]
  | (k', v') :: rest =>
      if String.eqb k k' then (k', v) :: rest
      else (k', v') :: dict_set rest k v
  end.

(** [d.pop(k)] for a key that is present. *)
Fixpoint dict_remove {A : Type} (d : list (string * A)) (k : string)
  : list (string * A) :=
  match d with
  | [] => []
  | (k', v') :: rest =>
      if String.eqb k k' then rest else (k', v') :: dict_remove rest k
  end.

Definition dict_mem {A : Type} (k : string) (d : list (string * A)) : bool :=
  match assoc k d with Some _ => true | None => false end.

Definition keys {A : Type} (d : list (string * A)) : list string :=
  map fst d.

(** [name.rfind(c)]. *)
Fixpoint rfind (c : ascii) (s : string) : option nat :=
  match s with
  | EmptyString => None
  | String x rest =>
      match rfind c rest with
      | Some i => Some (S i)
      | None => if Ascii.eqb x c then Some O else None
      end
  end.

(** [pathlib.PurePath.name]: the last component of the path. *)
Definition path_name (p : string) : string :=
  match rfind "/" p with
  | Some i => substring (S i) (String.length p - S i) p
  | None => p
  end.

(** [pathlib.PurePath.suffix]: from the last dot of the name on, unless the
    dot is the first or the last character of the name. *)
Definition suffix (p : string) : string :=
  let name := path_name p in
  match rfind "." name with
  | Some i =>
      if (Nat.ltb 0 i && Nat.ltb i (String.length name - 1))%nat
      then substring i (String.length name - i) name
      else EmptyString
  | None => EmptyString
  end.

(** [str.casefold] on the letters A to Z; the result is only compared with
    [".xlsx"] and [".json"], which no other character folds into. *)
Fixpoint casefold (s : string) : string :=
  match s with
  | EmptyString => EmptyString
  | String c rest =>
      let n := nat_of_ascii c in
      String (if (Nat.leb 65 n && Nat.leb n 90)%nat
              then ascii_of_nat (n + 32) else c)
             (casefold rest)
  end.

(** ** TransDatabase *)

Module TransDatabase.

Definition INFO_TITLE : string := "info".
Definition LANGS : string := "language".

(** A [TransDatabase] is a [dict] (its [items], in insertion order) with
    one more attribute, [info]. *)
Record state : Type := {
  items : list (string * value);
  info : value
}.

(** [key in self] for an arbitrary object: lists, dicts and [UserList]s
    are unhashable; [None] and integers are never keys here. *)
Definition contains (key : value) (self : state) : result bool :=
  match key with
  | VStr k => Ok (dict_mem k (items self))
  | VNone => Ok false
  | VInt _ => Ok false
  | _ => Raise TypeError
  end.

(** [TransDatabase.__setitem__(trans_list_name, trans_list)].  The second
    branch builds a [TypeError] and drops it: there is no [raise]. *)
Definition setitem (trans_list_name trans_list : value) : method state unit :=
  fun self =>
    match trans_list_name with
    | VStr name =>
        if negb (isinstance_TransList trans_list) then (Ok tt, self)
        else (Ok tt, {| items := dict_set (items self) name trans_list;
                        info := info self |})
    | _ => (Raise TypeError, self)
    end.

(** [TransDatabase.add(trans_list_name, trans_list=None)].  With
    [trans_list is None] the new [TransList()] is bound to the local name
    only; [__setitem__] is called in the [else] branch alone. *)
Definition add (trans_list_name trans_list : value) : method state unit :=
  fun self =>
    match contains trans_list_name self with
    | Raise e => (Raise e, self)
    | Ok true => (Raise KeyError, self)
    | Ok false =>
        if is_None trans_list then (Ok tt, self)
        else setitem trans_list_name trans_list self
    end.

(** [obj[key] = v] for a [str] key: a [dict] takes it; every other object
    of the embedding refuses it with a [TypeError]. *)
Definition store_str (obj : value) (key : string) (v : value) : result value :=
  match obj with
  | VDict d => Ok (VDict (dict_set d key v))
  | _ => Raise TypeError
  end.

(** [TransDatabase.change_lang_attrs(first_lang, second_lang)]. *)
Definition change_lang_attrs (first_lang second_lang : value)
  : method state unit :=
  fun self =>
    match (tp <- TransPair.init first_lang second_lang ;;
           store_str (info self) LANGS tp) with
    | Ok info' => (Ok tt, {| items := items self; info := info' |})
    | Raise e => (Raise e, self)
    end.

(** The body of the constructor's inner loop:
    [for tpair in decor_tlist: tlist.append(TransPair(tpair[0], tpair[1]))]. *)
Definition append_raw (tpair : value) : method TransList.state unit :=
  fun tlist =>
    match (a <- getitem tpair 0 ;;
           b <- getitem tpair 1 ;;
           TransPair.init a b) with
    | Ok tp => TransList.append tp tlist
    | Raise e => (Raise e, tlist)
    end.

(** One round of the constructor's outer loop: build the [TransList] of
    [decor_tlist] and [add] it under [tlist_name]. *)
Definition add_decorated (entry : string * value) : method state unit :=
  fun self =>
    match iterate (snd entry) with
    | Raise e => (Raise e, self)
    | Ok tpairs =>
        match for_each append_raw tpairs [] with
        | (Raise e, _) => (Raise e, self)
        | (Ok _, tlist) => add (VStr (fst entry)) (VTransList tlist) self
        end
    end.

(** [self[key]]: [dict.__getitem__]. *)
Definition getitem_key (key : value) (self : state) : result value :=
  match key with
  | VStr k => match assoc k (items self) with
              | Some v => Ok v
              | None => Raise KeyError
              end
  | VNone => Raise KeyError
  | VInt _ => Raise KeyError
  | _ => Raise TypeError
  end.

(** The loop of [getbyindex]:
    [for i, item in enumerate(self): if i == index: return self[item]];
    running to the end returns [None]. *)
Fixpoint getbyindex_loop (self : state) (index i : Z)
  (its : list (string * value)) : result value :=
  match its with
  | [] => Ok VNone
  | (item, _) :: rest =>
      if i =? index then getitem_key (VStr item) self
      else getbyindex_loop self index (i + 1) rest
  end.

(** [TransDatabase.getbyindex(index)]. *)
Definition getbyindex (index : Z) (self : state) : result value :=
  if (index <? 0) || (Z.of_nat (List.length (items self)) <? index)
  then Raise IndexError
  else getbyindex_loop self index 0 (items self).

(** The outcome of a call [obj.get_translation(...)]: what the method
    gives, or the [AttributeError] of an object without that method. *)
Inductive call_outcome : Type :=
| Called (r : result value)
| AttributeError.

(** [tlist.get_translation(sentence, hint)] on an arbitrary object: only a
    [TransList] has the method. *)
Definition call_get_translation (tlist sentence : value) (hint : Z)
  : call_outcome :=
  match tlist with
  | VTransList data => Called (TransList.get_translation data sentence hint)
  | _ => AttributeError
  end.

(** [self[key].get_translation(sentence, hint)]. *)
Definition lookup_translation (key sentence : value) (hint : Z) (self : state)
  : call_outcome :=
  match getitem_key key self with
  | Ok tlist => call_get_translation tlist sentence hint
  | Raise e => Called (Raise e)
  end.

(** [TransDatabase.get_translation(key, sentence, lang=None)]. *)
Definition get_translation (key sentence lang : value) (self : state)
  : call_outcome :=
  match (langs <- getitem_str (info self) LANGS ;; getitem langs 0) with
  | Raise e => Called (Raise e)
  | Ok first =>
      if py_eq lang first then lookup_translation key sentence 1 self
      else
        match (langs <- getitem_str (info self) LANGS ;; getitem langs 1) with
        | Raise e => Called (Raise e)
        | Ok second =>
            if py_eq lang second then lookup_translation key sentence 2 self
            else lookup_translation key sentence 0 self
        end
  end.

Section Library.

(** What the module takes from Python itself: [str(v)] for an object that
    is not a [str], and the [json] module ([json.dumps] with the options of
    the source, [json.loads]). *)
Variable builtin_str : value -> string.
Variable json_dumps : value -> result string.
Variable json_loads : string -> result value.

Definition to_str (v : value) : string :=
  match v with
  | VStr s => s
  | _ => builtin_str v
  end.

(** [TransDatabase.__chk_lang_attr(fl, sl)]. *)
Definition chk_lang_attr (fl sl : value) : result value :=
  let fl := to_str fl in
  let sl := to_str sl in
  if String.eqb fl sl then Raise ValueError
  else Ok (VList [VStr fl; VStr sl]).

(** [TransDatabase.__init__(first_lang, second_lang, **kwargs)]. *)
Definition init (first_lang second_lang : value)
  (kwargs : list (string * value)) : result state :=
  r <- match assoc INFO_TITLE kwargs with
       | Some info0 =>
           langs <- chk_lang_attr first_lang second_lang ;;
           info1 <- store_str info0 LANGS langs ;;
           Ok (info1, dict_remove kwargs INFO_TITLE)
       | None =>
           if is_None first_lang || is_None second_lang then Raise TypeError
           else
             langs <- chk_lang_attr first_lang second_lang ;;
             Ok (VDict [(LANGS, langs);
                        ("creator", VStr "Daniel Daninsky");
                        ("script", VStr "duobreaker v0.1")], kwargs)
       end ;;
  match for_each add_decorated (snd r) {| items := []; info := fst r |} with
  | (Ok _, self) => Ok self
  | (Raise e, _) => Raise e
  end.

(** The inner loop of [__json_save]:
    [for trans_pair in value: std_list.append(list(trans_pair))]. *)
Fixpoint std_list_of (trans_pairs : list value) : result (list value) :=
  match trans_pairs with
  | [] => Ok []
  | trans_pair :: rest =>
      l <- iterate trans_pair ;;
      std_list <- std_list_of rest ;;
      Ok (VList l :: std_list)
  end.

(** The outer loop of [__json_save] over [self.items()]. *)
Fixpoint std_dict_of (its std_dict : list (string * value))
  : result (list (string * value)) :=
  match its with
  | [] => Ok std_dict
  | (key, v) :: rest =>
      trans_pairs <- iterate v ;;
      std_list <- std_list_of trans_pairs ;;
      std_dict_of rest (dict_set std_dict key (VList std_list))
  end.

(** [TransDatabase.__json_save(file)]: the file holds the text [json.dump]
    writes.  A call that raises is not given a file system. *)
Definition json_save (self : state) (path : string) (fs : filesystem)
  : result filesystem :=
  std_dict <- std_dict_of (items self) [] ;;
  let std_dict := dict_set std_dict INFO_TITLE (info self) in
  text <- json_dumps (VDict std_dict) ;;
  Ok (dict_set fs path (TextFile text)).

(** [TransDatabase.__json_load(file)]; reading a spreadsheet as text fails
    in the decoder, with a subclass of [ValueError]. *)
Definition json_load (path : string) (fs : filesystem) : result value :=
  match assoc path fs with
  | None => Raise FileNotFoundError
  | Some (TextFile text) => json_loads text
  | Some (XlsxFile _) => Raise ValueError
  end.

(** The row loop of [__xlsx_load]: [break] at the first row with an empty
    cell in column A or B. *)
Fixpoint read_rows (rs : list (value * value)) : list value :=
  match rs with
  | [] => []
  | (a, b) :: rest =>
      if is_None a || is_None b then []
      else VList [a; b] :: read_rows rest
  end.

Definition cell_A1 (ws : worksheet) : value :=
  match rows ws with
  | (a, _) :: _ => a
  | [] => VNone
  end.

(** [workbook[name]] when [name in workbook.sheetnames]. *)
Fixpoint find_sheet (name : string) (wb : workbook) : option worksheet :=
  match wb with
  | [] => None
  | ws :: rest =>
      if String.eqb name (title ws) then Some ws else find_sheet name rest
  end.

(** [workbook.remove(workbook[name])]. *)
Fixpoint remove_sheet (name : string) (wb : workbook) : workbook :=
  match wb with
  | [] => []
  | ws :: rest =>
      if String.eqb name (title ws) then rest
      else ws :: remove_sheet name rest
  end.

(** The sheet loop of [__xlsx_load]. *)
Fixpoint load_sheets (wb : workbook) (kwargs : list (string * value))
  : list (string * value) :=
  match wb with
  | [] => kwargs
  | spreadsheet :: rest =>
      load_sheets rest
        (dict_set kwargs (title spreadsheet)
           (VList (read_rows (rows spreadsheet))))
  end.

(** The body of [__xlsx_load] once the workbook is open; [json.loads]
    wants a [str]. *)
Definition xlsx_load_workbook (wb : workbook) (info_title : string)
  : result (list (string * value)) :=
  match find_sheet info_title wb with
  | Some ws =>
      meta <- match cell_A1 ws with
              | VStr text => json_loads text
              | _ => Raise TypeError
              end ;;
      Ok (load_sheets (remove_sheet info_title wb) [(info_title, meta)])
  | None => Ok (load_sheets wb [])
  end.

(** [TransDatabase.__xlsx_load(file, info_title)]. *)
Definition xlsx_load (path : string) (info_title : string) (fs : filesystem)
  : result (list (string * value)) :=
  match assoc path fs with
  | None => Raise FileNotFoundError
  | Some (TextFile _) => Raise BadZipFile
  | Some (XlsxFile wb) => xlsx_load_workbook wb info_title
  end.

(** [TransDatabase.fromfile(file)].  The call [cls(first_lang, second_lang,
    **kwargs)] needs a mapping and refuses a keyword that names one of the
    two positional parameters. *)
Definition fromfile (path : string) (fs : filesystem) : result state :=
  let extension := casefold (suffix path) in
  kwargs <- (if String.eqb extension ".xlsx" then
               kw <- xlsx_load path INFO_TITLE fs ;; Ok (VDict kw)
             else if String.eqb extension ".json" then json_load path fs
             else Raise ValueError) ;;
  meta <- getitem_str kwargs INFO_TITLE ;;
  langs <- getitem_str meta LANGS ;;
  first_lang <- getitem langs 0 ;;
  langs' <- (meta' <- getitem_str kwargs INFO_TITLE ;; getitem_str meta' LANGS) ;;
  second_lang <- getitem langs' 1 ;;
  match kwargs with
  | VDict kw =>
      if dict_mem "first_lang" kw || dict_mem "second_lang" kw
      then Raise TypeError
      else init first_lang second_lang kw
  | _ => Raise TypeError
  end.

End Library.

Section Save.

(** The two writers [save] chooses between: [__json_save], with the [json]
    module it calls, and [__xlsx_save], which is left to [openpyxl]. *)
Variable json_dumps : value -> result string.
Variable xlsx_save : state -> string -> filesystem -> result filesystem.


End Save.

End TransDatabase.

(** Reading the members of a JSON object left to right: a name that comes
    again later keeps its first position and takes the later value. *)
Definition dict_set_front {A : Type} (k : string) (v : A)
  (later : list (string * A)) : list (string * A) :=
  match assoc k later with
  | Some v' => (k, v') :: dict_remove later k
  | None => (k, v) :: later
  end.

(** ** A JSON codec

    One instance of the [json] interface above, for the documents the
    database writes: [None], integers, strings, lists and dicts with string
    keys.  [dumps] lays the text out as [json.dump(..., indent="    ",
    ensure_ascii=False)] does; [loads] is a recursive-descent reader of the
    same grammar. *)

Module Json.

Definition quote : ascii := "034"%char.
Definition backslash : ascii := "092"%char.
Definition newline : string := String "010"%char EmptyString.

(** The characters of a string between its quotes. *)
Fixpoint escape (s : string) : string :=
  match s with
  | EmptyString => EmptyString
  | String c rest =>
      if Ascii.eqb c quote then String backslash (String quote (escape rest))
      else if Ascii.eqb c backslash
      then String backslash (String backslash (escape rest))
      else if Ascii.eqb c "010"%char
      then String backslash (String "n"%char (escape rest))
      else String c (escape rest)
  end.

Definition dump_str (s : string) : string :=
  (String quote (escape s) ++ String quote EmptyString)%string.

Fixpoint indentation (level : nat) : string :=
  match level with
  | O => EmptyString
  | S n => ("    " ++ indentation n)%string
  end.

(** The items of a container, one per line, separated by commas. *)
Fixpoint join_lines (level : nat) (items : list string) : string :=
  match items with
  | [] => EmptyString
  | [x] => (newline ++ indentation level ++ x)%string
  | x :: rest =>
      (newline ++ indentation level ++ x ++ "," ++ join_lines level rest)%string
  end.

Definition container (open close : string) (level : nat) (items : list string)
  : string :=
  match items with
  | [] => (open ++ close)%string
  | _ => (open ++ join_lines (S level) items
          ++ newline ++ indentation level ++ close)%string
  end.

(** A [TransPair] or [TransList] is not JSON serializable: [TypeError]. *)
Fixpoint dump (level : nat) (v : value) : result string :=
  match v with
  | VNone => Ok "null"
  | VInt z => Ok (NilZero.string_of_int (Z.to_int z))
  | VStr s => Ok (dump_str s)
  | VList l =>
      items <- (fix go (l : list value) : result (list string) :=
                  match l with
                  | [] => Ok []
                  | x :: rest =>
                      t <- dump (S level) x ;;
                      ts <- go rest ;;
                      Ok (t :: ts)
                  end) l ;;
      Ok (container "[" "]" level items)
  | VDict d =>
      items <- (fix go (d : list (string * value)) : result (list string) :=
                  match d with
                  | [] => Ok []
                  | (k, x) :: rest =>
                      t <- dump (S level) x ;;
                      ts <- go rest ;;
                      Ok ((dump_str k ++ ": " ++ t)%string :: ts)
                  end) d ;;
      Ok (container "{" "}" level items)
  | VTransPair _ _ => Raise TypeError
  | VTransList _ => Raise TypeError
  end.

Definition dumps (v : value) : result string := dump 0 v.

Definition is_space (c : ascii) : bool :=
  Ascii.eqb c " "%char || Ascii.eqb c "010"%char
  || Ascii.eqb c "009"%char || Ascii.eqb c "013"%char.

Fixpoint skip_ws (s : string) : string :=
  match s with
  | String c rest => if is_space c then skip_ws rest else s
  | EmptyString => EmptyString
  end.

(** The text after an opening quote, up to the closing quote. *)
Fixpoint read_str (s : string) : option (string * string) :=
  match s with
  | EmptyString => None
  | String c rest =>
      if Ascii.eqb c quote then Some (EmptyString, rest)
      else if Ascii.eqb c backslash then
        match rest with
        | String e rest' =>
            let plain (x : ascii) :=
              match read_str rest' with
              | Some (t, r) => Some (String x t, r)
              | None => None
              end in
            if Ascii.eqb e quote then plain quote
            else if Ascii.eqb e backslash then plain backslash
            else if Ascii.eqb e "/"%char then plain "/"%char
            else if Ascii.eqb e "n"%char then plain "010"%char
            else if Ascii.eqb e "t"%char then plain "009"%char
            else if Ascii.eqb e "r"%char then plain "013"%char
            else None
        | EmptyString => None
        end
      else
        match read_str rest with
        | Some (t, r) => Some (String c t, r)
        | None => None
        end
  end.

Definition is_digit (c : ascii) : bool :=
  (Nat.leb 48 (nat_of_ascii c) && Nat.leb (nat_of_ascii c) 57)%nat.

Fixpoint read_digits (s : string) : string * string :=
  match s with
  | String c rest =>
      if is_digit c then
        let (ds, r) := read_digits rest in (String c ds, r)
      else (EmptyString, s)
  | EmptyString => (EmptyString, EmptyString)
  end.

Definition read_int (s : string) : option (value * string) :=
  let (sign, body) :=
    match s with
    | String "-"%char rest => ("-", rest)
    | _ => (EmptyString, s)
    end in
  let (ds, r) := read_digits body in
  match ds with
  | EmptyString => None
  | _ =>
      match NilZero.int_of_string (sign ++ ds)%string with
      | Some i => Some (VInt (Z.of_int i), r)
      | None => None
      end
  end.

Fixpoint read_value (fuel : nat) (s : string) : option (value * string) :=
  match fuel with
  | O => None
  | S fuel' =>
      match skip_ws s with
      | String "n"%char (String "u"%char (String "l"%char (String "l"%char r))) =>
          Some (VNone, r)
      | String "["%char r =>
          match skip_ws r with
          | String "]"%char r' => Some (VList [], r')
          | _ =>
              match read_items fuel' r with
              | Some (l, r') => Some (VList l, r')
              | None => None
              end
          end
      | String "{"%char r =>
          match skip_ws r with
          | String "}"%char r' => Some (VDict [], r')
          | _ =>
              match read_members fuel' r with
              | Some (d, r') => Some (VDict d, r')
              | None => None
              end
          end
      | String c r =>
          if Ascii.eqb c quote then
            match read_str r with
            | Some (t, r') => Some (VStr t, r')
            | None => None
            end
          else read_int (String c r)
      | EmptyString => None
      end
  end
with read_items (fuel : nat) (s : string) : option (list value * string) :=
  match fuel with
  | O => None
  | S fuel' =>
      match read_value fuel' s with
      | Some (v, r) =>
          match skip_ws r with
          | String ","%char r' =>
              match read_items fuel' r' with
              | Some (l, r'') => Some (v :: l, r'')
              | None => None
              end
          | String "]"%char r' => Some ([v], r')
          | _ => None
          end
      | None => None
      end
  end
with read_members (fuel : nat) (s : string)
  : option (list (string * value) * string) :=
  match fuel with
  | O => None
  | S fuel' =>
      match skip_ws s with
      | String c r =>
          if Ascii.eqb c quote then
            match read_str r with
            | Some (k, r1) =>
                match skip_ws r1 with
                | String ":"%char r2 =>
                    match read_value fuel' r2 with
                    | Some (v, r3) =>
                        match skip_ws r3 with
                        | String ","%char r4 =>
                            match read_members fuel' r4 with
                            | Some (d, r5) => Some (dict_set_front k v d, r5)
                            | None => None
                            end
                        | String "}"%char r4 => Some ([(k, v)], r4)
                        | _ => None
                        end
                    | None => None
                    end
                | _ => None
                end
            | None => None
            end
          else None
      | EmptyString => None
      end
  end.

(** A malformed text raises [JSONDecodeError], a [ValueError]. *)
Definition loads (text : string) : result value :=
  match read_value (2 * String.length text + 2) text with
  | Some (v, r) =>
      match skip_ws r with
      | EmptyString => Ok v
      | _ => Raise ValueError
      end
  | None => Raise ValueError
  end.

(** [str(v)] for the objects with a fixed rendering. *)
Definition str (v : value) : string :=
  match v with
  | VStr s => s
  | VNone => "None"
  | VInt z => NilZero.string_of_int (Z.to_int z)
  | _ => "<object>"
  end.

End Json.

(** * Specification-side definitions *)

Module Spec.
Import TransDatabase.

(** A database without lists. *)
Definition empty_database (meta : value) : state :=
  {| items := []; info := meta |}.

(** [self.info["language"][0]] and [self.info["language"][1]], as
    [TransDatabase.get_translation] reads them. *)
Definition languages (self : state) : result (value * value) :=
  langs <- getitem_str (info self) LANGS ;;
  a <- getitem langs 0 ;;
  b <- getitem langs 1 ;;
  Ok (a, b).

(** The invariant of the data model: both identifiers are there and differ. *)
Definition languages_distinct (self : state) : bool :=
  match languages self with
  | Ok (a, b) => negb (py_eq a b)
  | Raise _ => false
  end.

(** Every item is a [TransPair]. *)
Definition all_TransPair (l : list value) : bool :=
  forallb isinstance_TransPair l.

(** The two sentences of a pair. *)
Definition first_of (p : value) : value :=
  match p with VTransPair a _ => a | _ => VNone end.

Definition second_of (p : value) : value :=
  match p with VTransPair _ b => b | _ => VNone end.

(** The lookup as the specification words it: the first pair in list order
    whose first (second) element equals the sentence. *)
Definition first_with_first (sentence : value) (l : list value) : option value :=
  find (fun p => py_eq (first_of p) sentence) l.

Definition first_with_second (sentence : value) (l : list value) : option value :=
  find (fun p => py_eq (second_of p) sentence) l.

(** Hint 0: the counterpart of the first first-element match; without one
    anywhere, the counterpart of the first second-element match; without
    one either, [None]. *)
Definition translation_both (sentence : value) (l : list value) : value :=
  match first_with_first sentence l with
  | Some p => second_of p
  | None =>
      match first_with_second sentence l with
      | Some p => first_of p
      | None => VNone
      end
  end.

(** Hint 1: first elements only. *)
Definition translation_first (sentence : value) (l : list value) : value :=
  match first_with_first sentence l with
  | Some p => second_of p
  | None => VNone
  end.

(** Hint 2: second elements only. *)
Definition translation_second (sentence : value) (l : list value) : value :=
  match first_with_second sentence l with
  | Some p => first_of p
  | None => VNone
  end.

(** A row has a gap when column A or column B is empty. *)
Definition has_gap (r : value * value) : bool :=
  is_None (fst r) || is_None (snd r).

(** The position of the first row with a gap (the number of rows when
    there is none). *)
Fixpoint first_gap (rs : list (value * value)) : nat :=
  match rs with
  | [] => O
  | r :: rest => if has_gap r then O else S (first_gap rest)
  end.

Definition raw_pair (r : value * value) : value :=
  VList [fst r; snd r].

Definition sample_sheet : worksheet :=
  {| title := "greetings";
     rows := [(VStr "a", VStr "b"); (VStr "c", VStr "d");
              (VNone, VStr "e"); (VStr "f", VStr "g")] |}.

(** The German for bye, with its u-umlaut as character 252. *)
Definition tschuess : string := ("tsch" ++ String "252"%char "ss")%string.

Definition hello_pair : value := VTransPair (VStr "hello") (VStr "hallo").
Definition bye_pair : value := VTransPair (VStr "bye") (VStr tschuess).

(** The keyword argument [greetings=[["hello","hallo"],["bye","tschuess"]]]. *)
Definition greetings_kwargs : list (string * value) :=
  [("greetings", VList [VList [VStr "hello"; VStr "hallo"];
                        VList [VStr "bye"; VStr tschuess]])].

(** The database the constructor builds from it with ["EN"] and ["DE"]. *)
Definition greetings_database : state :=
  {| items := [("greetings", VTransList [hello_pair; bye_pair])];
     info := VDict [(LANGS, VList [VStr "EN"; VStr "DE"]);
                    ("creator", VStr "Daniel Daninsky");
                    ("script", VStr "duobreaker v0.1")] |}.

(** The [std_dict] that [__json_save] hands to [json.dump]. *)
Definition greetings_document : value :=
  VDict (greetings_kwargs ++ [(INFO_TITLE, info greetings_database)]).

(** The text the codec [Json] writes for it. *)
Definition greetings_text : string :=
  Eval vm_compute in
    match Json.dumps greetings_document with
    | Ok text => text
    | Raise _ => EmptyString
    end.

(** A sentence: a string that is not empty. *)
Definition is_sentence (v : value) : bool :=
  match v with
  | VStr s => negb (String.eqb s EmptyString)
  | _ => false
  end.

(** The invariant a [TransPair] is meant to have: two sentences. *)
Definition sentence_pair (p : TransPair.state) : bool :=
  is_sentence (fst p) && is_sentence (snd p).

(** The [TransPair] object with a given state. *)
Definition pair_value (p : TransPair.state) : value :=
  VTransPair (fst p) (snd p).

(** No item of [l] equals an item before it or an item of [seen]. *)
Fixpoint distinct_from (seen l : list value) : bool :=
  match l with
  | [] => true
  | x :: rest =>
      negb (TransList.contains seen x) && distinct_from (seen ++ [x]) rest
  end.

Definition distinct (l : list value) : bool := distinct_from [] l.

(** A pair of a list turned round, as [TransPair.switch] leaves it. *)
Definition switched (p : value) : value :=
  match p with
  | VTransPair a b => pair_value (snd (TransPair.switch (a, b)))
  | _ => p
  end.

(** A list of a database as it is meant to be: a [TransList] of
    [TransPair]s, no two of them equal. *)
Definition well_formed_list (v : value) : bool :=
  match v with
  | VTransList data => all_TransPair data && distinct data
  | _ => false
  end.

Definition well_formed (self : state) : bool :=
  forallb (fun kv => well_formed_list (snd kv)) (items self).

(** The content of a database, written down with plain strings: its named
    lists of sentence pairs, in order. *)
Definition sentences : Type := list (string * string).

Definition content : Type := list (string * sentences).

(** The [TransPair] and the plain two-item list of a pair of strings. *)
Definition pair_of (st : string * string) : value :=
  VTransPair (VStr (fst st)) (VStr (snd st)).


(** The item of the database and the member of the JSON document for one
    named list. *)
Definition item_of (nl : string * sentences) : string * value :=
  (fst nl, VTransList (map pair_of (snd nl))).


(** The database with this content and this [info]. *)
Definition database_of (lists : content) (meta : list (string * value))
  : state :=
  {| items := map item_of lists; info := VDict meta |}.










(** Two lists, used as a running example. *)
Definition sample_content : content :=
  [("greetings", [("hello", "hallo"); ("bye", "servus")]);
   ("answers", [("yes", "ja"); ("no", "nein")])].

Definition sample_meta : list (string * value) :=
  [(LANGS, VList [VStr "EN"; VStr "DE"]); ("creator", VStr "somebody")].



End Spec.

(** * Properties *)

(** ** TransPair: the checks of the constructor *)

Lemma init_type_error_iff (a b : value) :
  TransPair.init a b = Raise TypeError <->
  isinstance_str a = false /\ isinstance_str b = false.
Proof.
  unfold TransPair.init.
  destruct (isinstance_str a) eqn:Ha, (isinstance_str b) eqn:Hb; simpl;
    try (destruct (py_eq (py_and a b) (VStr EmptyString))); split; intros H;
    try discriminate; try (destruct H; discriminate); auto.
Qed.

(** For two strings, [a and b] is the empty string exactly when [a] or [b]
    is. *)
Lemma and_is_empty_iff (a b : string) :
  py_eq (py_and (VStr a) (VStr b)) (VStr EmptyString) = true <-> a = EmptyString \/ b = EmptyString.
Proof.
  unfold py_and; simpl.
  destruct (String.eqb_spec a EmptyString) as [Ha | Ha]; simpl.
  - subst a; simpl; split; auto.
  - destruct (String.eqb_spec b EmptyString) as [Hb | Hb]; split; auto.
    + discriminate.
    + intros [H | H]; contradiction.
Qed.

(** C6: the guard joins the two [isinstance] tests with [and], so one
    string is enough: [TransPair("a", None)] is built, with [None] as its
    second sentence, instead of raising [TypeError]. *)
Theorem init_accepts_one_non_string :
  TransPair.init (VStr "a") VNone = Ok (VTransPair (VStr "a") VNone)
  /\ TransPair.init VNone (VStr "a") = Ok (VTransPair VNone (VStr "a"))
  /\ TransPair.init VNone (VInt 1) = Raise TypeError.
Proof. repeat split. Qed.

(** C7: for two strings of which one is empty the constructor raises
    [ValueError]. *)
Theorem init_empty_string_value_error (a b : string) :
  a = EmptyString \/ b = EmptyString ->
  TransPair.init (VStr a) (VStr b) = Raise ValueError.
Proof.
  intros H. unfold TransPair.init. simpl.
  apply and_is_empty_iff in H. rewrite H. reflexivity.
Qed.

Lemma init_empty_string_value_error_witness :
  ("hello" = EmptyString \/ EmptyString = EmptyString)
  /\ TransPair.init (VStr "hello") (VStr EmptyString) = Raise ValueError.
Proof.
  split.
  - right; reflexivity.
  - apply (init_empty_string_value_error "hello" EmptyString). right; reflexivity.
Defined.


(** ** TransList.pop *)

(** Out of range, [pop] raises [IndexError] and leaves the list alone. *)
Lemma pop_out_of_range (data : list value) (index : Z) :
  index < - Z.of_nat (List.length data) \/ Z.of_nat (List.length data) <= index ->
  TransList.pop index data = (Raise IndexError, data).
Proof.
  intros H. unfold TransList.pop, mbind, TransList.list_pop.
  set (n := Z.of_nat (List.length data)) in *.
  destruct (index <? 0) eqn:E.
  - apply Z.ltb_lt in E.
    destruct H as [H | H]; [| lia].
    assert (Hlt : (index + n <? 0) = true) by (apply Z.ltb_lt; lia).
    rewrite Hlt. reflexivity.
  - apply Z.ltb_ge in E.
    destruct H as [H | H]; [lia |].
    assert (Hge : (n <=? index) = true) by (apply Z.leb_le; lia).
    rewrite Hge, orb_true_r. reflexivity.
Qed.

(** In range (counting from the front), [list.pop] removes the item at
    [index] and returns it. *)
Lemma list_pop_in_range (pre post : list value) (x : value) :
  TransList.list_pop (Z.of_nat (List.length pre)) (pre ++ x :: post)
  = (Ok x, pre ++ post).
Proof.
  unfold TransList.list_pop. cbv zeta.
  assert (E1 : (Z.of_nat (List.length pre) <? 0) = false)
    by (apply Z.ltb_ge; lia).
  assert (E2 : (Z.of_nat (List.length (pre ++ x :: post))
                <=? Z.of_nat (List.length pre)) = false).
  { apply Z.leb_gt. rewrite length_app. cbn [List.length]. lia. }
  rewrite E1. cbv iota. rewrite E1, E2. cbn [orb]. rewrite Nat2Z.id.
  rewrite nth_error_app2 by lia. rewrite Nat.sub_diag. cbn [nth_error].
  f_equal.
  rewrite firstn_app, Nat.sub_diag, firstn_all. cbn [firstn].
  rewrite app_nil_r. f_equal.
  rewrite skipn_app, skipn_all2 by lia.
  replace (S (List.length pre) - List.length pre)%nat with 1%nat by lia.
  reflexivity.
Qed.

(** [TransList.pop] removes the same item and returns [None]. *)
Lemma pop_in_range (pre post : list value) (x : value) :
  TransList.pop (Z.of_nat (List.length pre)) (pre ++ x :: post)
  = (Ok VNone, pre ++ post).
Proof.
  unfold TransList.pop, mbind. rewrite list_pop_in_range. reflexivity.
Qed.

(** C4: [TransList.pop] removes the item but never returns it: on the list
    of the two greetings, [pop(0)] and [pop()] both return [None]. *)
Theorem pop_returns_None :
  let hello := VTransPair (VStr "hello") (VStr "hallo") in
  let bye := VTransPair (VStr "bye") (VStr "tschuess") in
  TransList.pop 0 [hello; bye] = (Ok VNone, [bye])
  /\ TransList.pop TransList.pop_default_index [hello; bye] = (Ok VNone, [hello])
  /\ TransList.pop 2 [hello; bye] = (Raise IndexError, [hello; bye]).
Proof. repeat split. Qed.

(** ** Dictionaries *)

Lemma assoc_dict_set_same {A : Type} (d : list (string * A)) (k : string) (v : A) :
  assoc k (dict_set d k v) = Some v.
Proof.
  induction d as [| [k' v'] rest IH]; simpl.
  - rewrite String.eqb_refl. reflexivity.
  - destruct (String.eqb k k') eqn:E; simpl; rewrite E; auto.
Qed.

Lemma assoc_dict_set_other {A : Type} (d : list (string * A)) (k k0 : string) (v : A) :
  k0 <> k -> assoc k0 (dict_set d k v) = assoc k0 d.
Proof.
  intros Hne. induction d as [| [k' v'] rest IH]; simpl.
  - destruct (String.eqb_spec k0 k); [contradiction | reflexivity].
  - destruct (String.eqb_spec k k') as [-> | Hk]; simpl.
    + destruct (String.eqb_spec k0 k'); [contradiction | reflexivity].
    + rewrite IH. reflexivity.
Qed.

Lemma dict_set_absent {A : Type} (d : list (string * A)) (k : string) (v : A) :
  assoc k d = None -> dict_set d k v = d ++ [(k, v)].
Proof.
  induction d as [| [k' v'] rest IH]; simpl; intros H.
  - reflexivity.
  - destruct (String.eqb k k'); [discriminate |]. rewrite IH; auto.
Qed.

(** ** TransDatabase: [__setitem__] and [add] *)

Module DatabaseFacts.
Import Spec.
Import TransDatabase.

Lemma setitem_not_str (name v : value) (d : state) :
  isinstance_str name = false -> setitem name v d = (Raise TypeError, d).
Proof. destruct name; simpl; intros H; try discriminate; reflexivity. Qed.

Lemma setitem_TransList (name : string) (data : list value) (d : state) :
  setitem (VStr name) (VTransList data) d
  = (Ok tt, {| items := dict_set (items d) name (VTransList data);
               info := info d |}).
Proof. reflexivity. Qed.

Lemma setitem_not_TransList (name : string) (v : value) (d : state) :
  isinstance_TransList v = false -> setitem (VStr name) v d = (Ok tt, d).
Proof. intros H. unfold setitem. rewrite H. reflexivity. Qed.

(** C5: with a string name and a value that is not a [TransList] the
    assignment returns normally, without a [TypeError], and stores nothing;
    only a name that is not a string raises. *)
Theorem setitem_without_raise (d : state) (name : string) (data : list value) :
  setitem (VStr name) (VInt 5) d = (Ok tt, d)
  /\ setitem (VStr name) (VList [VList [VStr "hello"; VStr "hallo"]]) d = (Ok tt, d)
  /\ setitem (VInt 5) (VTransList data) d = (Raise TypeError, d)
  /\ setitem (VStr name) (VTransList data) d
     = (Ok tt, {| items := dict_set (items d) name (VTransList data);
                  info := info d |}).
Proof. repeat split. Qed.

Lemma add_existing (name : string) (v : value) (d : state) :
  dict_mem name (items d) = true ->
  add (VStr name) v d = (Raise KeyError, d).
Proof. intros H. unfold add. simpl. rewrite H. reflexivity. Qed.

Lemma add_supplied (name : string) (data : list value) (d : state) :
  dict_mem name (items d) = false ->
  exists d',
    add (VStr name) (VTransList data) d = (Ok tt, d')
    /\ assoc name (items d') = Some (VTransList data)
    /\ items d' = items d ++ [(name, VTransList data)]
    /\ info d' = info d.
Proof.
  intros H. unfold add. simpl. rewrite H. simpl.
  eexists. split; [reflexivity |]. simpl.
  split; [apply assoc_dict_set_same |]. split; [| reflexivity].
  apply dict_set_absent. unfold dict_mem in H.
  destruct (assoc name (items d)); [discriminate | reflexivity].
Qed.

Lemma add_without_list (name : string) (d : state) :
  dict_mem name (items d) = false ->
  add (VStr name) VNone d = (Ok tt, d).
Proof. intros H. unfold add. simpl. rewrite H. reflexivity. Qed.

(** C3: [add(name)] without a list on a database that has no list of that
    name returns normally and leaves the database as it was: [name] is
    still not a key. *)
Theorem add_default_not_stored (meta : value) :
  add (VStr "greetings") VNone (empty_database meta) = (Ok tt, empty_database meta)
  /\ contains (VStr "greetings") (empty_database meta) = Ok false
  /\ add (VStr "greetings") (VTransList []) (empty_database meta)
     = (Ok tt, {| items := [("greetings", VTransList [])]; info := meta |}).
Proof. repeat split. Qed.

End DatabaseFacts.

(** ** The language identifiers of [info] *)

Module LanguageFacts.
Import Spec.
Import TransDatabase.

Lemma setitem_info (name v : value) (d : state) :
  info (snd (setitem name v d)) = info d.
Proof.
  unfold setitem. destruct name; try reflexivity.
  destruct (isinstance_TransList v); reflexivity.
Qed.

Lemma add_info (name v : value) (d : state) :
  info (snd (add name v d)) = info d.
Proof.
  unfold add. destruct (contains name d) as [[|] |]; try reflexivity.
  destruct (is_None v); [reflexivity | apply setitem_info].
Qed.

Lemma add_decorated_info (entry : string * value) (d : state) :
  info (snd (add_decorated entry d)) = info d.
Proof.
  unfold add_decorated. destruct (iterate (snd entry)); [| reflexivity].
  destruct (for_each append_raw a []) as [[[] | e] tlist]; [| reflexivity].
  apply add_info.
Qed.

Lemma for_each_add_decorated_info (entries : list (string * value)) (d : state) :
  info (snd (for_each add_decorated entries d)) = info d.
Proof.
  revert d. induction entries as [| entry rest IH]; intros d; simpl.
  - reflexivity.
  - unfold mbind. pose proof (add_decorated_info entry d) as H.
    destruct (add_decorated entry d) as [[[] | e] d1]; simpl in *.
    + rewrite IH. exact H.
    + exact H.
Qed.

Section Str.

Variable builtin_str : value -> string.

Lemma chk_lang_attr_distinct (fl sl langs : value) :
  chk_lang_attr builtin_str fl sl = Ok langs ->
  exists a b, langs = VList [VStr a; VStr b] /\ a <> b.
Proof.
  unfold chk_lang_attr.
  destruct (String.eqb_spec (to_str builtin_str fl) (to_str builtin_str sl));
    intros H; [discriminate |].
  injection H as <-. eauto.
Qed.

Lemma distinct_of_info (d : state) (meta : list (string * value)) (a b : string) :
  info d = VDict meta ->
  assoc LANGS meta = Some (VList [VStr a; VStr b]) ->
  a <> b ->
  languages_distinct d = true.
Proof.
  intros Hinfo Hassoc Hne. unfold languages_distinct, languages.
  rewrite Hinfo. simpl. rewrite Hassoc. simpl.
  destruct (String.eqb_spec a b); [contradiction | reflexivity].
Qed.

(** The constructor establishes the invariant: every database it returns
    has two distinct language identifiers. *)
Lemma init_languages_distinct (fl sl : value) (kwargs : list (string * value))
  (d : state) :
  init builtin_str fl sl kwargs = Ok d -> languages_distinct d = true.
Proof.
  unfold init. intros H.
  destruct (assoc INFO_TITLE kwargs) as [info0 |] eqn:Hinfo.
  - destruct (chk_lang_attr builtin_str fl sl) as [langs |] eqn:Hchk;
      [| discriminate].
    apply chk_lang_attr_distinct in Hchk as (a & b & -> & Hne).
    simpl in H. destruct info0; simpl in H; try discriminate.
    pose proof (for_each_add_decorated_info (dict_remove kwargs INFO_TITLE)
                  {| items := [];
                     info := VDict (dict_set d0 LANGS (VList [VStr a; VStr b])) |})
      as Hi.
    destruct (for_each add_decorated _ _) as [[[] | e] d1]; [| discriminate].
    injection H as <-. simpl in Hi.
    eapply distinct_of_info; [exact Hi | apply assoc_dict_set_same | exact Hne].
  - destruct (is_None fl || is_None sl); [discriminate |].
    destruct (chk_lang_attr builtin_str fl sl) as [langs |] eqn:Hchk;
      [| discriminate].
    apply chk_lang_attr_distinct in Hchk as (a & b & -> & Hne).
    simpl in H.
    match type of H with
    | match for_each _ ?ks ?s0 with _ => _ end = _ =>
        pose proof (for_each_add_decorated_info ks s0) as Hi;
        destruct (for_each add_decorated ks s0) as [[[] | e] d1];
        [| discriminate]
    end.
    injection H as <-. simpl in Hi.
    eapply distinct_of_info; [exact Hi | reflexivity | exact Hne].
Qed.

(** C2: [change_lang_attrs] writes [info["language"]] without the check of
    the constructor.  On the database built with ["EN"] and ["DE"], where
    the identifiers differ, [change_lang_attrs("EN", "EN")] succeeds and
    leaves two equal identifiers. *)
Theorem change_lang_attrs_equal_languages :
  exists d d',
    init builtin_str (VStr "EN") (VStr "DE") [] = Ok d
    /\ languages_distinct d = true
    /\ change_lang_attrs (VStr "EN") (VStr "EN") d = (Ok tt, d')
    /\ languages d' = Ok (VStr "EN", VStr "EN")
    /\ languages_distinct d' = false.
Proof.
  eexists. eexists. repeat split.
Qed.

End Str.

End LanguageFacts.

(** ** TransList: the constructor and [append] *)

Module ListFacts.
Import Spec.

(** The constructor is the loop of [append] from the empty list. *)
Lemma for_each_append_app (pre post : list value) (self self' : TransList.state) :
  for_each TransList.append pre self = (Ok tt, self') ->
  for_each TransList.append (pre ++ post) self
  = for_each TransList.append post self'.
Proof.
  revert self. induction pre as [| x pre IH]; intros self H; simpl in *.
  - unfold mret in H. injection H as <-. reflexivity.
  - unfold mbind in *.
    destruct (TransList.append x self) as [[[] | e] s1]; [| discriminate].
    apply IH. exact H.
Qed.

(** What the loop does to the list: it adds the arguments, unchanged and in
    order, or raises; it never removes or rewrites an item. *)
Lemma for_each_append_ok (args : list value) (self self' : TransList.state) :
  for_each TransList.append args self = (Ok tt, self') ->
  self' = self ++ args /\ all_TransPair args = true.
Proof.
  revert self. induction args as [| x args IH]; intros self H; simpl in *.
  - unfold mret in H. injection H as <-. rewrite app_nil_r. auto.
  - unfold mbind in H. unfold TransList.append at 1 in H.
    destruct (isinstance_TransPair x) eqn:Hx; simpl in H; [| discriminate].
    destruct (TransList.contains self x); [discriminate |].
    apply IH in H as [-> Hall]. rewrite <- app_assoc. simpl. auto.
Qed.

Lemma for_each_append_outcome (args : list value) (self : TransList.state) :
  exists self',
    for_each TransList.append args self = (Ok tt, self')
    \/ for_each TransList.append args self = (Raise TypeError, self')
    \/ for_each TransList.append args self = (Raise KeyError, self').
Proof.
  revert self. induction args as [| x args IH]; intros self; simpl.
  - eexists. left. reflexivity.
  - unfold mbind.
    assert (Happ : TransList.append x self = (Raise TypeError, self)
                   \/ TransList.append x self = (Raise KeyError, self)
                   \/ TransList.append x self = (Ok tt, self ++ [x])).
    { unfold TransList.append. destruct (isinstance_TransPair x); simpl; auto.
      destruct (TransList.contains self x); auto. }
    destruct Happ as [E | [E | E]]; rewrite E.
    + eexists. right. left. reflexivity.
    + eexists. right. right. reflexivity.
    + apply IH.
Qed.

Lemma init_ok_inv (args : list value) (v : value) :
  TransList.init args = Ok v ->
  v = VTransList args /\ all_TransPair args = true.
Proof.
  unfold TransList.init.
  destruct (for_each TransList.append args []) as [[[] | e] data] eqn:E;
    intros H; [| discriminate].
  injection H as <-. apply for_each_append_ok in E as [-> Hall]. auto.
Qed.

Lemma init_app (pre post : list value) :
  (exists v, TransList.init pre = Ok v) ->
  TransList.init (pre ++ post)
  = match for_each TransList.append post pre with
    | (Ok _, data) => Ok (VTransList data)
    | (Raise e, _) => Raise e
    end.
Proof.
  intros [v Hv]. unfold TransList.init in *.
  destruct (for_each TransList.append pre []) as [[[] | e] data] eqn:E;
    [| discriminate].
  pose proof (for_each_append_ok _ _ _ E) as [Hd _]. simpl in Hd. subst data.
  rewrite (for_each_append_app pre post [] pre E). reflexivity.
Qed.

(** C10 as stated fails: with the same pair passed twice before a raw
    list, the constructor leaves at the second argument with [KeyError];
    the [TypeError] of the raw list is never reached. *)
Lemma init_non_pair_not_always_type_error :
  ~ (forall args : list value,
       (exists x, In x args /\ isinstance_TransPair x = false) ->
       TransList.init args = Raise TypeError).
Proof.
  intros H.
  specialize (H [VTransPair (VStr "hello") (VStr "hallo");
                 VTransPair (VStr "hello") (VStr "hallo");
                 VList [VStr "bye"; VStr "tschuess"]]).
  assert (Hex : exists x,
             In x [VTransPair (VStr "hello") (VStr "hallo");
                   VTransPair (VStr "hello") (VStr "hallo");
                   VList [VStr "bye"; VStr "tschuess"]]
             /\ isinstance_TransPair x = false).
  { exists (VList [VStr "bye"; VStr "tschuess"]). split; [| reflexivity].
    simpl. auto. }
  specialize (H Hex). vm_compute in H. discriminate.
Qed.

(** C10, amended: the constructor runs [append] on the arguments in order.
    It succeeds only when every argument is a [TransPair], and then stores
    the arguments themselves, unchanged and in order; with an argument that
    is not a [TransPair] it always fails, with [TypeError] or [KeyError],
    and with [TypeError] when the arguments before it were accepted; an
    argument equal to an accepted earlier one fails with [KeyError]. *)
Theorem init_accepts_only_TransPairs (pre post : list value) (x : value) :
  (exists v, TransList.init pre = Ok v) ->
  (isinstance_TransPair x = false ->
     TransList.init (pre ++ x :: post) = Raise TypeError)
  /\ (isinstance_TransPair x = true -> TransList.contains pre x = true ->
        TransList.init (pre ++ x :: post) = Raise KeyError)
  /\ (forall args v, TransList.init args = Ok v ->
        v = VTransList args /\ all_TransPair args = true)
  /\ (forall args, all_TransPair args = false ->
        TransList.init args = Raise TypeError
        \/ TransList.init args = Raise KeyError).
Proof.
  intros Hpre. repeat split.
  - intros Hx. rewrite init_app by exact Hpre. simpl. unfold mbind.
    unfold TransList.append at 1. rewrite Hx. reflexivity.
  - intros Hx Hc. rewrite init_app by exact Hpre. simpl. unfold mbind.
    unfold TransList.append at 1. rewrite Hx, Hc. reflexivity.
  - apply init_ok_inv in H. tauto.
  - apply init_ok_inv in H. tauto.
  - intros args Hall. unfold TransList.init.
    destruct (for_each_append_outcome args []) as [s [E | [E | E]]];
      rewrite E; auto.
    apply for_each_append_ok in E as [_ E]. congruence.
Qed.

Lemma init_accepts_only_TransPairs_witness :
  let hello := VTransPair (VStr "hello") (VStr "hallo") in
  let raw := VList [VStr "bye"; VStr "tschuess"] in
  (exists v, TransList.init [hello] = Ok v)
  /\ TransList.init ([hello] ++ raw :: [hello]) = Raise TypeError
  /\ TransList.init ([hello] ++ hello :: [raw]) = Raise KeyError.
Proof.
  intros hello raw.
  assert (Hpre : exists v, TransList.init [hello] = Ok v)
    by (eexists; reflexivity).
  split; [exact Hpre |]. split.
  - apply (proj1 (init_accepts_only_TransPairs [hello] [hello] raw Hpre)).
    reflexivity.
  - apply (proj1 (proj2 (init_accepts_only_TransPairs [hello] [raw] hello Hpre)));
      reflexivity.
Defined.

End ListFacts.

(** ** TransList.get_translation *)

Module TranslationFacts.
Import Spec.

Import ListFacts.

Lemma search_first_find (sentence : value) (l : list value) :
  all_TransPair l = true ->
  TransList.search_first sentence l
  = Ok (option_map second_of (first_with_first sentence l)).
Proof.
  unfold first_with_first.
  induction l as [| p l IH]; simpl; intros H; [reflexivity |].
  apply andb_prop in H as [Hp Hl].
  destruct p; try discriminate. simpl.
  destruct (py_eq p1 sentence); [reflexivity | auto].
Qed.

Lemma search_second_find (sentence : value) (l : list value) :
  all_TransPair l = true ->
  TransList.search_second sentence l
  = Ok (option_map first_of (first_with_second sentence l)).
Proof.
  unfold first_with_second.
  induction l as [| p l IH]; simpl; intros H; [reflexivity |].
  apply andb_prop in H as [Hp Hl].
  destruct p; try discriminate. simpl.
  destruct (py_eq p2 sentence); [reflexivity | auto].
Qed.

(** C8: on a list of pairs, [get_translation] with hint 0, 1 and 2 returns
    what the three lookups of the specification return. *)
Theorem get_translation_spec (l : list value) (sentence : value) :
  all_TransPair l = true ->
  TransList.get_translation l sentence 0 = Ok (translation_both sentence l)
  /\ TransList.get_translation l sentence 1 = Ok (translation_first sentence l)
  /\ TransList.get_translation l sentence 2 = Ok (translation_second sentence l).
Proof.
  intros H. unfold TransList.get_translation.
  unfold translation_both, translation_first, translation_second.
  simpl. rewrite (search_first_find sentence l H).
  rewrite (search_second_find sentence l H). simpl.
  destruct (first_with_first sentence l); simpl;
    destruct (first_with_second sentence l); simpl; auto.
Qed.

Lemma get_translation_spec_witness :
  let l := [VTransPair (VStr "hello") (VStr "hallo");
            VTransPair (VStr "hallo") (VStr "salut");
            VTransPair (VStr "bye") (VStr "hallo")] in
  all_TransPair l = true
  /\ TransList.get_translation l (VStr "hallo") 0 = Ok (VStr "salut")
  /\ TransList.get_translation l (VStr "hallo") 1 = Ok (VStr "salut")
  /\ TransList.get_translation l (VStr "hallo") 2 = Ok (VStr "hello").
Proof.
  intros l. split; [reflexivity |].
  exact (get_translation_spec l (VStr "hallo") eq_refl).
Defined.

End TranslationFacts.

(** ** The spreadsheet loader *)

Module XlsxFacts.
Import Spec.
Import TransDatabase.

Lemma read_rows_first_gap (rs : list (value * value)) :
  read_rows rs = map raw_pair (firstn (first_gap rs) rs).
Proof.
  induction rs as [| [a b] rest IH]; simpl; [reflexivity |].
  unfold has_gap; simpl.
  destruct (is_None a || is_None b); simpl; [reflexivity |].
  rewrite IH. reflexivity.
Qed.

Lemma read_rows_stops (pre post : list (value * value)) (gap : value * value) :
  forallb (fun r => negb (has_gap r)) pre = true ->
  has_gap gap = true ->
  read_rows (pre ++ gap :: post) = map raw_pair pre.
Proof.
  intros Hpre Hgap. induction pre as [| [a b] pre IH]; simpl in *.
  - destruct gap as [a b]. unfold has_gap in Hgap; simpl in Hgap.
    rewrite Hgap. reflexivity.
  - apply andb_prop in Hpre as [Hr Hpre]. unfold has_gap in Hr; simpl in Hr.
    apply negb_true_iff in Hr. rewrite Hr. rewrite (IH Hpre). reflexivity.
Qed.

Lemma load_sheets_other (wb : workbook) (kwargs : list (string * value))
  (k : string) :
  ~ In k (map title wb) ->
  assoc k (load_sheets wb kwargs) = assoc k kwargs.
Proof.
  revert kwargs. induction wb as [| ws wb IH]; intros kwargs Hk; simpl in *.
  - reflexivity.
  - rewrite IH by tauto. apply assoc_dict_set_other.
    intros ->. apply Hk. auto.
Qed.

Lemma load_sheets_sheet (wb : workbook) (kwargs : list (string * value))
  (ws : worksheet) :
  NoDup (map title wb) -> In ws wb ->
  assoc (title ws) (load_sheets wb kwargs)
  = Some (VList (read_rows (rows ws))).
Proof.
  revert kwargs. induction wb as [| s wb IH]; intros kwargs Hnd Hin;
    simpl in *; [contradiction |].
  inversion Hnd as [| t ts Hnotin Hnd']; subst.
  destruct Hin as [-> | Hin].
  - rewrite load_sheets_other by exact Hnotin. apply assoc_dict_set_same.
  - apply IH; assumption.
Qed.

Lemma remove_sheet_In (name : string) (wb : workbook) (ws : worksheet) :
  In ws wb -> title ws <> name -> In ws (remove_sheet name wb).
Proof.
  induction wb as [| s wb IH]; simpl; intros Hin Hne; [contradiction |].
  destruct (String.eqb_spec name (title s)) as [-> | Hs].
  - destruct Hin as [-> | Hin]; [contradiction | exact Hin].
  - destruct Hin as [-> | Hin]; [left; reflexivity | right; auto].
Qed.

Lemma remove_sheet_incl (name : string) (wb : workbook) (t : string) :
  In t (map title (remove_sheet name wb)) -> In t (map title wb).
Proof.
  induction wb as [| s wb IH]; simpl; [tauto |].
  destruct (String.eqb name (title s)); simpl; tauto.
Qed.

Lemma remove_sheet_NoDup (name : string) (wb : workbook) :
  NoDup (map title wb) -> NoDup (map title (remove_sheet name wb)).
Proof.
  induction wb as [| s wb IH]; simpl; intros Hnd; [constructor |].
  inversion Hnd as [| t ts Hnotin Hnd']; subst.
  destruct (String.eqb name (title s)); simpl; [exact Hnd' |].
  constructor; [| auto].
  intros Hin. apply Hnotin. eapply remove_sheet_incl. exact Hin.
Qed.

Section Loader.

Variable json_loads : string -> result value.

(** Every sheet other than the metadata sheet is loaded as the pairs of
    its rows before the first gap. *)
Lemma xlsx_load_workbook_sheet (wb : workbook) (kwargs : list (string * value))
  (ws : worksheet) :
  NoDup (map title wb) ->
  xlsx_load_workbook json_loads wb INFO_TITLE = Ok kwargs ->
  In ws wb -> title ws <> INFO_TITLE ->
  assoc (title ws) kwargs
  = Some (VList (map raw_pair (firstn (first_gap (rows ws)) (rows ws)))).
Proof.
  intros Hnd Hload Hin Hne. rewrite <- read_rows_first_gap.
  unfold xlsx_load_workbook in Hload.
  destruct (find_sheet INFO_TITLE wb) as [meta_ws |].
  - destruct (match cell_A1 meta_ws with
              | VStr text => json_loads text
              | _ => Raise TypeError
              end) as [meta |]; simpl in Hload; [| discriminate].
    injection Hload as <-.
    apply load_sheets_sheet.
    + apply remove_sheet_NoDup. exact Hnd.
    + apply remove_sheet_In; assumption.
  - injection Hload as <-. apply load_sheets_sheet; assumption.
Qed.

(** C9: the row loop keeps the rows before the first row with an empty
    cell and drops that row and all rows after it, without an error; the
    sheet [("a","b"), ("c","d"), (None,"e"), ("f","g")] loads as the two
    pairs ["a","b"] and ["c","d"]. *)
Theorem xlsx_load_truncates_at_first_gap :
  (forall rs, read_rows rs = map raw_pair (firstn (first_gap rs) rs))
  /\ (forall pre gap post,
        forallb (fun r => negb (has_gap r)) pre = true ->
        has_gap gap = true ->
        read_rows (pre ++ gap :: post) = map raw_pair pre)
  /\ (forall wb kwargs ws,
        NoDup (map title wb) ->
        xlsx_load_workbook json_loads wb INFO_TITLE = Ok kwargs ->
        In ws wb -> title ws <> INFO_TITLE ->
        assoc (title ws) kwargs = Some (VList (read_rows (rows ws))))
  /\ xlsx_load json_loads "db.xlsx" INFO_TITLE
       [("db.xlsx", XlsxFile [sample_sheet])]
     = Ok [("greetings", VList [VList [VStr "a"; VStr "b"];
                                VList [VStr "c"; VStr "d"]])].
Proof.
  split; [exact read_rows_first_gap |].
  split; [intros pre gap post; apply read_rows_stops |].
  split; [| reflexivity].
  intros wb kwargs ws Hnd Hload Hin Hne.
  rewrite read_rows_first_gap.
  eapply xlsx_load_workbook_sheet; eassumption.
Qed.

End Loader.

Lemma xlsx_load_truncates_at_first_gap_witness :
  let loads := fun _ : string => Raise ValueError in
  let pre := [(VStr "a", VStr "b"); (VStr "c", VStr "d")] in
  forallb (fun r => negb (has_gap r)) pre = true
  /\ has_gap (VNone, VStr "e") = true
  /\ read_rows (pre ++ (VNone, VStr "e") :: [(VStr "f", VStr "g")])
     = [VList [VStr "a"; VStr "b"]; VList [VStr "c"; VStr "d"]]
  /\ (NoDup (map title [sample_sheet])
      /\ xlsx_load_workbook loads [sample_sheet] INFO_TITLE
         = Ok [("greetings", VList (read_rows (rows sample_sheet)))]
      /\ In sample_sheet [sample_sheet]
      /\ title sample_sheet <> INFO_TITLE)
  /\ assoc (title sample_sheet)
       [("greetings", VList (read_rows (rows sample_sheet)))]
     = Some (VList (read_rows (rows sample_sheet))).
Proof.
  intros loads pre.
  pose proof (xlsx_load_truncates_at_first_gap loads) as (_ & Hstop & Hsheet & _).
  assert (Hnd : NoDup (map title [sample_sheet])).
  { simpl. constructor; [simpl; tauto | constructor]. }
  assert (Hne : title sample_sheet <> INFO_TITLE) by (simpl; discriminate).
  split; [reflexivity |]. split; [reflexivity |].
  split; [exact (Hstop pre (VNone, VStr "e") [(VStr "f", VStr "g")] eq_refl eq_refl) |].
  split.
  - repeat split; auto. simpl. auto.
  - exact (Hsheet [sample_sheet] _ sample_sheet Hnd eq_refl
             (or_introl eq_refl) Hne).
Defined.

End XlsxFacts.

(** ** The JSON round trip *)

Module RoundTrip.
Import Spec.
Import TransDatabase.
Import LanguageFacts.

Section Library.

Variable builtin_str : value -> string.
Variable json_dumps : value -> result string.
Variable json_loads : string -> result value.

Lemma init_greetings :
  init builtin_str (VStr "EN") (VStr "DE") greetings_kwargs
  = Ok greetings_database.
Proof. reflexivity. Qed.

(** The same database, built list by list: [TransDatabase("EN", "DE")] and
    then [add("greetings", TransList(hello, bye))]. *)
Lemma add_greetings :
  exists d0 tlist,
    init builtin_str (VStr "EN") (VStr "DE") [] = Ok d0
    /\ TransList.init [hello_pair; bye_pair] = Ok tlist
    /\ add (VStr "greetings") tlist d0 = (Ok tt, greetings_database).
Proof. eexists. eexists. repeat split. Qed.

(** C1: with a [json] module that reads back the document it wrote, saving
    the greetings database with the JSON codec and loading the file with
    [fromfile] gives a database with the same list names, the same pairs in
    the same order in each list and the same language identifiers in the
    same order. *)
Theorem json_round_trip (path text : string) (fs : filesystem) :
  casefold (suffix path) = ".json" ->
  json_dumps greetings_document = Ok text ->
  json_loads text = Ok greetings_document ->
  exists fs' d',
    json_save json_dumps greetings_database path fs = Ok fs'
    /\ fromfile builtin_str json_loads path fs' = Ok d'
    /\ keys (items d') = keys (items greetings_database)
    /\ (forall name, assoc name (items d')
                     = assoc name (items greetings_database))
    /\ assoc "greetings" (items d') = Some (VTransList [hello_pair; bye_pair])
    /\ languages d' = languages greetings_database
    /\ languages d' = Ok (VStr "EN", VStr "DE")
    /\ d' = greetings_database.
Proof.
  intros Hext Hdumps Hloads.
  exists (dict_set fs path (TextFile text)), greetings_database.
  split.
  - unfold json_save. simpl std_dict_of. cbn [bind].
    change (VDict (dict_set _ INFO_TITLE (info greetings_database)))
      with greetings_document.
    rewrite Hdumps. reflexivity.
  - split; [| repeat split].
    unfold fromfile. rewrite Hext. cbn [String.eqb Ascii.eqb Bool.eqb].
    unfold json_load. rewrite assoc_dict_set_same, Hloads.
    reflexivity.
Qed.

End Library.

Lemma json_round_trip_witness :
  casefold (suffix "store/db.json") = ".json"
  /\ Json.dumps greetings_document = Ok greetings_text
  /\ Json.loads greetings_text = Ok greetings_document
  /\ exists fs' d',
       json_save Json.dumps greetings_database "store/db.json" [] = Ok fs'
       /\ fromfile Json.str Json.loads "store/db.json" fs' = Ok d'
       /\ d' = greetings_database.
Proof.
  assert (H1 : casefold (suffix "store/db.json") = ".json") by reflexivity.
  assert (H2 : Json.dumps greetings_document = Ok greetings_text)
    by (vm_compute; reflexivity).
  assert (H3 : Json.loads greetings_text = Ok greetings_document)
    by (vm_compute; reflexivity).
  split; [exact H1 |]. split; [exact H2 |]. split; [exact H3 |].
  destruct (json_round_trip Json.str Json.dumps Json.loads
              "store/db.json" greetings_text [] H1 H2 H3)
    as (fs' & d' & Hs & Hf & _ & _ & _ & _ & _ & Hd).
  exists fs', d'. auto.
Defined.

End RoundTrip.

(** * Further properties of the code *)

(** ** TransPair.__setitem__ and switch *)

Module PairFacts.
Import Spec.

(** X1: a successful [__setitem__] writes a sentence into the addressed
    slot and leaves the other slot alone; a refused one changes nothing; so
    a pair of two sentences stays one. *)
Theorem setitem_keeps_sentence_pair (key : Z) (v : value)
  (self self' : TransPair.state) (r : result unit) :
  TransPair.setitem key v self = (r, self') ->
  (r = Ok tt ->
     is_sentence v = true
     /\ ((key = 0 \/ key = -2) /\ self' = (v, snd self)
         \/ (key = 1 \/ key = -1) /\ self' = (fst self, v)))
  /\ (r <> Ok tt -> self' = self)
  /\ (sentence_pair self = true -> sentence_pair self' = true).
Proof.
  unfold TransPair.setitem. intros H.
  assert (Hrefused : forall e, (r, self') = (Raise e, self) \/ False ->
            (r = Ok tt ->
               is_sentence v = true
               /\ ((key = 0 \/ key = -2) /\ self' = (v, snd self)
                   \/ (key = 1 \/ key = -1) /\ self' = (fst self, v)))
            /\ (r <> Ok tt -> self' = self)
            /\ (sentence_pair self = true -> sentence_pair self' = true)).
  { intros e [E | []]. injection E as -> ->.
    split; [discriminate |]. split; auto. }
  destruct v as [| z | s | l | d | a b | l];
    try (apply (Hrefused TypeError); left; symmetry; exact H).
  destruct s as [| c s].
  - apply (Hrefused ValueError). left. symmetry. exact H.
  - cbn [String.length Nat.eqb] in H.
    assert (Hv : is_sentence (VStr (String c s)) = true) by reflexivity.
    set (i := if key <? 0 then key + 2 else key) in H.
    assert (Hi : (i = 0 -> key = 0 \/ key = -2)
                 /\ (i = 1 -> key = 1 \/ key = -1)).
    { unfold i. destruct (key <? 0) eqn:Hneg;
        [apply Z.ltb_lt in Hneg | apply Z.ltb_ge in Hneg]; split; lia. }
    destruct Hi as [Hi0 Hi1].
    destruct (i =? 0) eqn:E0.
    + apply Z.eqb_eq in E0. injection H as <- <-.
      split; [intros _; split; [exact Hv | left; auto] |].
      split; [intros Hne; contradiction Hne; reflexivity |].
      unfold sentence_pair. cbn [fst snd]. rewrite Hv.
      intros Hs. apply andb_prop in Hs as [_ Hs]. rewrite Hs. reflexivity.
    + destruct (i =? 1) eqn:E1.
      * apply Z.eqb_eq in E1. injection H as <- <-.
        split; [intros _; split; [exact Hv | right; auto] |].
        split; [intros Hne; contradiction Hne; reflexivity |].
        unfold sentence_pair. cbn [fst snd]. rewrite Hv.
        intros Hs. apply andb_prop in Hs as [Hs _]. rewrite Hs. reflexivity.
      * apply (Hrefused IndexError). left. symmetry. exact H.
Qed.

Lemma setitem_keeps_sentence_pair_witness :
  let self := (VStr "hello", VStr "hallo") in
  TransPair.setitem (-1) (VStr "servus") self
  = (Ok tt, (VStr "hello", VStr "servus"))
  /\ sentence_pair self = true
  /\ sentence_pair (VStr "hello", VStr "servus") = true.
Proof.
  intros self.
  destruct (setitem_keeps_sentence_pair (-1) (VStr "servus") self
              (VStr "hello", VStr "servus") (Ok tt) eq_refl)
    as (_ & _ & Hkeep).
  split; [reflexivity |]. split; [reflexivity |].
  apply Hkeep. reflexivity.
Defined.

End PairFacts.

(** ** TransList: construction, insert, extend, remove, pop *)

Module ListOps.
Import Spec.
Import ListFacts.

Lemma append_accepts (x : value) (self : TransList.state) :
  isinstance_TransPair x = true -> TransList.contains self x = false ->
  TransList.append x self = (Ok tt, self ++ [x]).
Proof. intros Hx Hc. unfold TransList.append. rewrite Hx, Hc. reflexivity. Qed.

Lemma for_each_append_distinct (args : list value) (self : TransList.state) :
  all_TransPair args = true -> distinct_from self args = true ->
  for_each TransList.append args self = (Ok tt, self ++ args).
Proof.
  revert self. induction args as [| x args IH]; intros self Hall Hd; simpl in *.
  - rewrite app_nil_r. reflexivity.
  - apply andb_prop in Hall as [Hx Hall]. apply andb_prop in Hd as [Hc Hd].
    apply negb_true_iff in Hc.
    unfold mbind. rewrite (append_accepts x self Hx Hc).
    rewrite (IH _ Hall Hd). rewrite <- app_assoc. reflexivity.
Qed.

Lemma for_each_append_ok_distinct (args : list value)
  (self self' : TransList.state) :
  for_each TransList.append args self = (Ok tt, self') ->
  distinct_from self args = true.
Proof.
  revert self. induction args as [| x args IH]; intros self H; simpl in *.
  - reflexivity.
  - unfold mbind in H. unfold TransList.append at 1 in H.
    destruct (isinstance_TransPair x); simpl in H; [| discriminate].
    destruct (TransList.contains self x); [discriminate |].
    simpl. apply IH. exact H.
Qed.

(** X2: the constructor succeeds exactly on arguments that are all
    [TransPair]s and pairwise different, and then the list holds exactly
    the arguments, in order. *)
Theorem init_ok_iff (args : list value) (v : value) :
  TransList.init args = Ok v <->
  v = VTransList args /\ all_TransPair args = true /\ distinct args = true.
Proof.
  unfold TransList.init, distinct. split.
  - destruct (for_each TransList.append args []) as [[[] | e] data] eqn:E;
      intros H; [| discriminate].
    injection H as <-.
    pose proof (for_each_append_ok _ _ _ E) as [-> Hall].
    pose proof (for_each_append_ok_distinct _ _ _ E) as Hd. auto.
  - intros (-> & Hall & Hd).
    rewrite (for_each_append_distinct args [] Hall Hd). reflexivity.
Qed.

Lemma init_ok_iff_witness :
  TransList.init [hello_pair; bye_pair] = Ok (VTransList [hello_pair; bye_pair])
  /\ TransList.init [hello_pair; bye_pair; hello_pair]
     <> Ok (VTransList [hello_pair; bye_pair; hello_pair]).
Proof.
  split.
  - apply (proj2 (init_ok_iff [hello_pair; bye_pair] _)).
    split; [reflexivity |]. split; reflexivity.
  - intros H.
    apply (proj1 (init_ok_iff [hello_pair; bye_pair; hello_pair] _)) in H.
    destruct H as (_ & _ & H). discriminate H.
Defined.



(** X4: [extend] is not atomic: when an item of [other] is refused, the
    items before it have been appended and stay in the list. *)
Theorem extend_keeps_accepted_prefix (pre post : list value) (x : value)
  (self : TransList.state) (e : exn) :
  for_each TransList.append pre self = (Ok tt, self ++ pre) ->
  TransList.append x (self ++ pre) = (Raise e, self ++ pre) ->
  TransList.extend (VList (pre ++ x :: post)) self = (Raise e, self ++ pre).
Proof.
  intros Hpre Hx. unfold TransList.extend. simpl.
  rewrite (for_each_append_app pre (x :: post) self (self ++ pre) Hpre).
  simpl. unfold mbind. rewrite Hx. reflexivity.
Qed.

Lemma extend_keeps_accepted_prefix_witness :
  let hello := VTransPair (VStr "hello") (VStr "hallo") in
  let bye := VTransPair (VStr "bye") (VStr "servus") in
  let yes := VTransPair (VStr "yes") (VStr "ja") in
  for_each TransList.append [bye] [hello] = (Ok tt, [hello] ++ [bye])
  /\ TransList.append hello ([hello] ++ [bye]) = (Raise KeyError, [hello] ++ [bye])
  /\ TransList.extend (VList ([bye] ++ hello :: [yes])) [hello]
     = (Raise KeyError, [hello; bye]).
Proof.
  intros hello bye yes.
  split; [reflexivity |]. split; [reflexivity |].
  exact (extend_keeps_accepted_prefix [bye] [yes] hello [hello] KeyError
           eq_refl eq_refl).
Defined.

(** What is on the right of [==] matters only through its [data] when it
    is list-like. *)
Lemma py_eq_raw_pair (y a b : value) :
  py_eq y (VList [a; b]) = py_eq y (VTransPair a b).
Proof. destruct y; reflexivity. Qed.

(** X5: [remove] compares by value, and a [TransPair] equals the plain
    list of its two items: [remove(["hello", "hallo"])] does what
    [remove(TransPair("hello", "hallo"))] does. *)
Theorem remove_raw_list (a b : value) (self : TransList.state) :
  TransList.remove (VList [a; b]) self
  = TransList.remove (VTransPair a b) self.
Proof.
  unfold TransList.remove.
  assert (H : TransList.list_remove (VList [a; b]) self
              = TransList.list_remove (VTransPair a b) self).
  { induction self as [| y rest IH]; simpl; [reflexivity |].
    rewrite py_eq_raw_pair, IH. reflexivity. }
  rewrite H. reflexivity.
Qed.

Lemma list_remove_last (x : value) (self : TransList.state) :
  TransList.contains self x = false -> py_eq x x = true ->
  TransList.list_remove x (self ++ [x]) = Some self.
Proof.
  unfold TransList.contains. intros Hc Hx.
  induction self as [| y rest IH]; simpl in *.
  - rewrite Hx. reflexivity.
  - apply orb_false_iff in Hc as [Hy Hc]. rewrite Hy, (IH Hc). reflexivity.
Qed.

Lemma list_remove_absent (x : value) (self : TransList.state) :
  TransList.contains self x = false -> TransList.list_remove x self = None.
Proof.
  unfold TransList.contains. intros Hc.
  induction self as [| y rest IH]; simpl in *; [reflexivity |].
  apply orb_false_iff in Hc as [Hy Hc]. rewrite Hy, (IH Hc). reflexivity.
Qed.

(** X6: [append] followed by [remove] of the same pair gives the list
    back; [remove] of a pair the list does not hold raises [ValueError] and
    changes nothing. *)
Theorem append_then_remove (x : value) (self : TransList.state) :
  isinstance_TransPair x = true ->
  TransList.contains self x = false ->
  py_eq x x = true ->
  mbind (TransList.append x) (fun _ => TransList.remove x) self = (Ok tt, self)
  /\ TransList.remove x self = (Raise ValueError, self).
Proof.
  intros Hx Hc Hrefl. split.
  - unfold mbind. rewrite (append_accepts x self Hx Hc).
    unfold TransList.remove. rewrite (list_remove_last x self Hc Hrefl).
    reflexivity.
  - unfold TransList.remove. rewrite (list_remove_absent x self Hc).
    reflexivity.
Qed.

Lemma append_then_remove_witness :
  let hello := VTransPair (VStr "hello") (VStr "hallo") in
  let bye := VTransPair (VStr "bye") (VStr "servus") in
  isinstance_TransPair bye = true
  /\ TransList.contains [hello] bye = false
  /\ py_eq bye bye = true
  /\ mbind (TransList.append bye) (fun _ => TransList.remove bye) [hello]
     = (Ok tt, [hello])
  /\ TransList.remove bye [hello] = (Raise ValueError, [hello]).
Proof.
  intros hello bye.
  split; [reflexivity |]. split; [reflexivity |]. split; [reflexivity |].
  exact (append_then_remove bye [hello] eq_refl eq_refl eq_refl).
Defined.

(** X7: a negative index counts from the end: on a list with [post] after
    the item [x], [pop(-(len(post) + 1))] removes [x], as
    [pop(len(pre))] does; [pop()] on the empty list raises [IndexError]. *)
Theorem pop_negative_index (pre post : list value) (x : value) :
  TransList.pop (- Z.of_nat (S (List.length post))) (pre ++ x :: post)
  = (Ok VNone, pre ++ post)
  /\ TransList.pop (- Z.of_nat (S (List.length post))) (pre ++ x :: post)
     = TransList.pop (Z.of_nat (List.length pre)) (pre ++ x :: post)
  /\ TransList.pop TransList.pop_default_index [] = (Raise IndexError, []).
Proof.
  assert (H : TransList.pop (- Z.of_nat (S (List.length post))) (pre ++ x :: post)
              = (Ok VNone, pre ++ post)).
  { rewrite <- (pop_in_range pre post x).
    unfold TransList.pop, mbind, TransList.list_pop. cbv zeta.
    rewrite length_app. cbn [List.length].
    set (k := - Z.of_nat (S (List.length post))).
    set (n := Z.of_nat (List.length pre + S (List.length post))).
    assert (Ek : (k <? 0) = true) by (apply Z.ltb_lt; unfold k; lia).
    assert (Ekn : k + n = Z.of_nat (List.length pre)) by (unfold k, n; lia).
    assert (Ep : (Z.of_nat (List.length pre) <? 0) = false)
      by (apply Z.ltb_ge; lia).
    rewrite Ek, Ep. cbv iota. rewrite Ekn. reflexivity. }
  split; [exact H |]. split; [| reflexivity].
  rewrite H, pop_in_range. reflexivity.
Qed.

Lemma search_first_switched (sentence : value) (l : list value) :
  all_TransPair l = true ->
  TransList.search_first sentence (map switched l)
  = TransList.search_second sentence l.
Proof.
  induction l as [| p l IH]; intros H; [reflexivity |].
  cbn [all_TransPair forallb] in H. apply andb_prop in H as [Hp Hl].
  destruct p; try discriminate. simpl.
  destruct (py_eq p2 sentence); [reflexivity | exact (IH Hl)].
Qed.

Lemma search_second_switched (sentence : value) (l : list value) :
  all_TransPair l = true ->
  TransList.search_second sentence (map switched l)
  = TransList.search_first sentence l.
Proof.
  induction l as [| p l IH]; intros H; [reflexivity |].
  cbn [all_TransPair forallb] in H. apply andb_prop in H as [Hp Hl].
  destruct p; try discriminate. simpl.
  destruct (py_eq p1 sentence); [reflexivity | exact (IH Hl)].
Qed.

(** X8: after [switch] on every pair of a list, a lookup among the first
    elements (hint 1) finds what a lookup among the second elements (hint 2)
    found before, and the other way round. *)
Theorem switch_exchanges_hints (l : list value) (sentence : value) :
  all_TransPair l = true ->
  TransList.get_translation (map switched l) sentence 1
  = TransList.get_translation l sentence 2
  /\ TransList.get_translation (map switched l) sentence 2
     = TransList.get_translation l sentence 1.
Proof.
  intros H. unfold TransList.get_translation. simpl.
  rewrite (search_first_switched sentence l H).
  rewrite (search_second_switched sentence l H).
  split.
  - destruct (TransList.search_second sentence l) as [[v |] | e]; reflexivity.
  - destruct (TransList.search_first sentence l) as [[v |] | e]; reflexivity.
Qed.

Lemma switch_exchanges_hints_witness :
  all_TransPair [hello_pair; bye_pair] = true
  /\ TransList.get_translation (map switched [hello_pair; bye_pair])
       (VStr "hallo") 1 = Ok (VStr "hello")
  /\ TransList.get_translation (map switched [hello_pair; bye_pair])
       (VStr "hello") 2 = Ok (VStr "hallo").
Proof.
  split; [reflexivity |].
  exact (conj
           (proj1 (switch_exchanges_hints [hello_pair; bye_pair]
                     (VStr "hallo") eq_refl))
           (proj2 (switch_exchanges_hints [hello_pair; bye_pair]
                     (VStr "hello") eq_refl))).
Defined.

End ListOps.

(** ** TransDatabase: lookups and [add] *)

Module DatabaseOps.
Import Spec.
Import TransDatabase.
Import TranslationFacts.


Lemma assoc_app_mid {A : Type} (pre post : list (string * A)) (k : string)
  (v : A) :
  assoc k pre = None -> assoc k (pre ++ (k, v) :: post) = Some v.
Proof.
  induction pre as [| [k' v'] rest IH]; simpl; intros H.
  - rewrite String.eqb_refl. reflexivity.
  - destruct (String.eqb k k'); [discriminate | auto].
Qed.



Lemma dict_remove_absent {A : Type} (d : list (string * A)) (k : string) :
  assoc k d = None -> dict_remove d k = d.
Proof.
  induction d as [| [k' v'] rest IH]; simpl; intros H; [reflexivity |].
  destruct (String.eqb k k'); [discriminate |]. rewrite IH; auto.
Qed.


Lemma getbyindex_loop_at (self : state) (pre post : list (string * value))
  (k : string) (v : value) (index i : Z) :
  index = i + Z.of_nat (List.length pre) ->
  getbyindex_loop self index i (pre ++ (k, v) :: post)
  = getitem_key (VStr k) self.
Proof.
  revert i. induction pre as [| [k' v'] pre IH]; intros i H;
    cbn [app getbyindex_loop List.length] in *.
  - assert (E : (i =? index) = true) by (apply Z.eqb_eq; lia).
    rewrite E. reflexivity.
  - assert (E : (i =? index) = false) by (apply Z.eqb_neq; lia).
    rewrite E. apply IH. lia.
Qed.

Lemma getbyindex_loop_end (self : state) (its : list (string * value))
  (index i : Z) :
  i + Z.of_nat (List.length its) <= index ->
  getbyindex_loop self index i its = Ok VNone.
Proof.
  revert i. induction its as [| [k v] its IH]; intros i H;
    cbn [getbyindex_loop List.length] in *; [reflexivity |].
  assert (E : (i =? index) = false) by (apply Z.eqb_neq; lia).
  rewrite E. apply IH. lia.
Qed.

(** X9: [getbyindex] gives the list at a position below [len(self)]; for
    [index == len(self)] the range check lets the call through and it
    returns [None]; only a negative index or one above [len(self)] raises
    [IndexError]. *)
Theorem getbyindex_spec (self : state) (index : Z) :
  (index < 0 \/ Z.of_nat (List.length (items self)) < index ->
     getbyindex index self = Raise IndexError)
  /\ (index = Z.of_nat (List.length (items self)) ->
        getbyindex index self = Ok VNone)
  /\ (forall (pre post : list (string * value)) (k : string) (v : value),
        items self = pre ++ (k, v) :: post ->
        assoc k pre = None ->
        index = Z.of_nat (List.length pre) ->
        getbyindex index self = Ok v).
Proof.
  unfold getbyindex. split; [| split].
  - intros [H | H].
    + assert (E : (index <? 0) = true) by (apply Z.ltb_lt; lia).
      rewrite E. reflexivity.
    + assert (E : (Z.of_nat (List.length (items self)) <? index) = true)
        by (apply Z.ltb_lt; lia).
      rewrite E, orb_true_r. reflexivity.
  - intros H.
    assert (E1 : (index <? 0) = false) by (apply Z.ltb_ge; lia).
    assert (E2 : (Z.of_nat (List.length (items self)) <? index) = false)
      by (apply Z.ltb_ge; lia).
    rewrite E1, E2. cbn [orb].
    apply getbyindex_loop_end. lia.
  - intros pre post k v Hitems Hk Hi.
    assert (Hlen : Z.of_nat (List.length (items self))
                   = Z.of_nat (List.length pre)
                     + Z.of_nat (S (List.length post))).
    { rewrite Hitems, length_app. cbn [List.length]. lia. }
    assert (E1 : (index <? 0) = false) by (apply Z.ltb_ge; lia).
    assert (E2 : (Z.of_nat (List.length (items self)) <? index) = false)
      by (apply Z.ltb_ge; lia).
    rewrite E1, E2. cbn [orb].
    pose proof (getbyindex_loop_at self pre post k v index 0) as Hloop.
    rewrite <- Hitems in Hloop. rewrite Hloop by lia.
    unfold getitem_key. rewrite Hitems, (assoc_app_mid pre post k v Hk).
    reflexivity.
Qed.

Lemma getbyindex_spec_witness :
  let d := database_of sample_content sample_meta in
  getbyindex 3 d = Raise IndexError
  /\ getbyindex 2 d = Ok VNone
  /\ getbyindex 1 d
     = Ok (VTransList [VTransPair (VStr "yes") (VStr "ja");
                       VTransPair (VStr "no") (VStr "nein")]).
Proof.
  intros d.
  destruct (getbyindex_spec d 3) as (H3 & _ & _).
  destruct (getbyindex_spec d 2) as (_ & H2 & _).
  destruct (getbyindex_spec d 1) as (_ & _ & H1).
  split; [apply H3; right; simpl; lia |].
  split; [apply H2; reflexivity |].
  apply (H1 [item_of ("greetings", [("hello", "hallo"); ("bye", "servus")])]
            [] "answers"); reflexivity.
Defined.




(** X11: [add] never overwrites: whatever the arguments and however the
    call ends, a list that was stored under a name is still stored under
    it afterwards. *)
Theorem add_never_overwrites (name v : value) (d d' : state)
  (r : result unit) (k : string) (x : value) :
  add name v d = (r, d') ->
  assoc k (items d) = Some x ->
  assoc k (items d') = Some x.
Proof.
  unfold add, contains. intros H Hk.
  destruct name; simpl in H;
    try (injection H as _ <-; exact Hk);
    try (destruct (is_None v); simpl in H; injection H as _ <-; exact Hk).
  destruct (dict_mem s (items d)) eqn:Hm; [injection H as _ <-; exact Hk |].
  destruct (is_None v); [injection H as _ <-; exact Hk |].
  destruct (isinstance_TransList v); simpl in H; injection H as _ <-;
    [| exact Hk].
  simpl. rewrite assoc_dict_set_other; [exact Hk |].
  intros ->. unfold dict_mem in Hm. rewrite Hk in Hm. discriminate.
Qed.

Lemma add_never_overwrites_witness :
  let d := database_of sample_content sample_meta in
  assoc "greetings" (items (snd (add (VStr "greetings") (VTransList []) d)))
  = assoc "greetings" (items d)
  /\ assoc "greetings" (items (snd (add (VStr "more") (VTransList []) d)))
     = assoc "greetings" (items d).
Proof.
  intros d. split.
  - apply (add_never_overwrites (VStr "greetings") (VTransList []) d _
             (Raise KeyError) "greetings"); reflexivity.
  - apply (add_never_overwrites (VStr "more") (VTransList []) d _
             (Ok tt) "greetings"); reflexivity.
Defined.

End DatabaseOps.

(** ** TransDatabase: what the constructor builds *)

Module ConstructorFacts.
Import Spec.
Import TransDatabase.
Import DatabaseFacts.
Import LanguageFacts.
Import ListOps.
Import DatabaseOps.

Lemma distinct_from_snoc (seen l : list value) (x : value) :
  distinct_from seen (l ++ [x])
  = distinct_from seen l && negb (TransList.contains (seen ++ l) x).
Proof.
  revert seen. induction l as [| y l IH]; intros seen;
    cbn [distinct_from app].
  - rewrite app_nil_r, andb_true_r. reflexivity.
  - rewrite IH, <- app_assoc, andb_assoc. reflexivity.
Qed.

Lemma append_well_formed (x : value) (self self' : TransList.state) :
  TransList.append x self = (Ok tt, self') ->
  well_formed_list (VTransList self) = true ->
  well_formed_list (VTransList self') = true.
Proof.
  unfold TransList.append.
  destruct (isinstance_TransPair x) eqn:Hx; simpl; [| discriminate].
  destruct (TransList.contains self x) eqn:Hc; [discriminate |].
  intros H Hwf. injection H as <-.
  apply andb_prop in Hwf as [Ha Hd].
  unfold all_TransPair, distinct in *.
  rewrite forallb_app, distinct_from_snoc. cbn [app forallb].
  rewrite Ha, Hd, Hx, Hc. reflexivity.
Qed.

Lemma append_raw_ok (tpair : value) (tlist tlist' : TransList.state) :
  append_raw tpair tlist = (Ok tt, tlist') ->
  exists tp, TransList.append tp tlist = (Ok tt, tlist').
Proof.
  unfold append_raw.
  destruct (bind (getitem tpair 0) _) as [tp | e]; intros H;
    [eauto | discriminate].
Qed.

Lemma for_each_append_raw_well_formed (tpairs : list value)
  (tlist tlist' : TransList.state) :
  for_each append_raw tpairs tlist = (Ok tt, tlist') ->
  well_formed_list (VTransList tlist) = true ->
  well_formed_list (VTransList tlist') = true.
Proof.
  revert tlist. induction tpairs as [| tpair rest IH]; intros tlist H Hwf;
    cbn [for_each] in H; unfold mret, mbind in H.
  - injection H as <-. exact Hwf.
  - destruct (append_raw tpair tlist) as [[[] | e] t1] eqn:E;
      [| discriminate].
    apply append_raw_ok in E as [tp E].
    apply (IH t1 H). exact (append_well_formed tp tlist t1 E Hwf).
Qed.

Lemma add_decorated_ok (entry : string * value) (d d' : state) :
  add_decorated entry d = (Ok tt, d') ->
  exists tlist,
    well_formed_list (VTransList tlist) = true
    /\ items d' = items d ++ [(fst entry, VTransList tlist)]
    /\ info d' = info d.
Proof.
  unfold add_decorated.
  destruct (iterate (snd entry)) as [tpairs | e]; [| discriminate].
  destruct (for_each append_raw tpairs []) as [[[] | e] tlist] eqn:E;
    [| discriminate].
  intros H. exists tlist.
  split; [exact (for_each_append_raw_well_formed tpairs [] tlist E eq_refl) |].
  destruct (dict_mem (fst entry) (items d)) eqn:Hm.
  - rewrite (add_existing _ _ _ Hm) in H. discriminate.
  - destruct (add_supplied (fst entry) tlist d Hm)
      as (d1 & Ha & _ & Hi & Hinfo).
    rewrite Ha in H. injection H as <-. auto.
Qed.

Lemma for_each_add_decorated_ok (entries : list (string * value))
  (d d' : state) :
  for_each add_decorated entries d = (Ok tt, d') ->
  well_formed d = true ->
  well_formed d' = true
  /\ keys (items d') = keys (items d) ++ keys entries.
Proof.
  revert d. induction entries as [| entry rest IH]; intros d H Hwf;
    cbn [for_each] in H; unfold mret, mbind in H.
  - injection H as <-. unfold keys. cbn [map]. rewrite app_nil_r. auto.
  - destruct (add_decorated entry d) as [[[] | e] d1] eqn:E;
      [| discriminate].
    apply add_decorated_ok in E as (tlist & Hl & Hi & _).
    destruct (IH d1 H) as [Hwf' Hk].
    + unfold well_formed in *. rewrite Hi, forallb_app, Hwf.
      cbn [forallb snd]. rewrite Hl. reflexivity.
    + split; [exact Hwf' |]. rewrite Hk, Hi. unfold keys.
      rewrite map_app, <- app_assoc. reflexivity.
Qed.

Section Str.

Variable builtin_str : value -> string.

(** X12: every database the constructor returns has, under the names of
    the keyword arguments (without [info]) and in their order, only
    [TransList]s of [TransPair]s without a pair twice, and two different
    language identifiers. *)
Theorem init_well_formed (fl sl : value) (kwargs : list (string * value))
  (d : state) :
  init builtin_str fl sl kwargs = Ok d ->
  well_formed d = true
  /\ keys (items d) = keys (dict_remove kwargs INFO_TITLE)
  /\ languages_distinct d = true.
Proof.
  intros H.
  pose proof (init_languages_distinct builtin_str fl sl kwargs d H) as Hlang.
  unfold init in H.
  destruct (assoc INFO_TITLE kwargs) as [info0 |] eqn:Hinfo.
  - destruct (chk_lang_attr builtin_str fl sl) as [langs |]; [| discriminate].
    cbn [bind] in H.
    destruct (store_str info0 LANGS langs) as [info1 |]; [| discriminate].
    cbn [bind fst snd] in H.
    destruct (for_each add_decorated _ _) as [[[] | e] d1] eqn:E;
      [| discriminate].
    injection H as <-.
    apply for_each_add_decorated_ok in E as [Hwf Hk]; [| reflexivity].
    auto.
  - destruct (is_None fl || is_None sl); [discriminate |].
    destruct (chk_lang_attr builtin_str fl sl) as [langs |]; [| discriminate].
    cbn [bind fst snd] in H.
    destruct (for_each add_decorated _ _) as [[[] | e] d1] eqn:E;
      [| discriminate].
    injection H as <-.
    apply for_each_add_decorated_ok in E as [Hwf Hk]; [| reflexivity].
    rewrite (dict_remove_absent kwargs INFO_TITLE Hinfo). auto.
Qed.

(** X13: a language that is [None] is refused with a [TypeError] only
    when no [info] is passed.  With [info], [None] goes through [str] and is
    stored as a language identifier; two [None]s are then equal identifiers
    and raise [ValueError]. *)
Theorem init_missing_language (fl sl : value)
  (kwargs meta : list (string * value)) :
  (assoc INFO_TITLE kwargs = None ->
   is_None fl || is_None sl = true ->
   init builtin_str fl sl kwargs = Raise TypeError)
  /\ (builtin_str VNone <> to_str builtin_str sl ->
      init builtin_str VNone sl [(INFO_TITLE, VDict meta)]
      = Ok {| items := [];
              info := VDict (dict_set meta LANGS
                               (VList [VStr (builtin_str VNone);
                                       VStr (to_str builtin_str sl)])) |})
  /\ init builtin_str VNone VNone ((INFO_TITLE, VDict meta) :: kwargs)
     = Raise ValueError.
Proof.
  split; [| split].
  - intros Hinfo Hnone. unfold init. rewrite Hinfo, Hnone. reflexivity.
  - intros Hne. unfold init. cbn [assoc INFO_TITLE String.eqb Ascii.eqb Bool.eqb].
    unfold chk_lang_attr. cbn [to_str].
    destruct (String.eqb_spec (builtin_str VNone) (to_str builtin_str sl));
      [contradiction |].
    reflexivity.
  - unfold init. cbn [assoc INFO_TITLE String.eqb Ascii.eqb Bool.eqb].
    unfold chk_lang_attr. cbn [to_str]. rewrite String.eqb_refl.
    reflexivity.
Qed.

End Str.

Lemma init_well_formed_witness :
  init Json.str (VStr "EN") (VStr "DE") greetings_kwargs
  = Ok greetings_database
  /\ well_formed greetings_database = true
  /\ keys (items greetings_database) = ["greetings"].
Proof.
  split; [reflexivity |].
  destruct (init_well_formed Json.str (VStr "EN") (VStr "DE")
              greetings_kwargs greetings_database eq_refl) as (H1 & H2 & _).
  split; [exact H1 | exact H2].
Defined.

Lemma init_missing_language_witness :
  init Json.str VNone (VStr "DE") [] = Raise TypeError
  /\ init Json.str VNone (VStr "DE") [(INFO_TITLE, VDict [])]
     = Ok {| items := [];
             info := VDict [(LANGS, VList [VStr "None"; VStr "DE"])] |}.
Proof.
  destruct (init_missing_language Json.str VNone (VStr "DE") [] [])
    as (H1 & H2 & _).
  split; [apply H1; reflexivity |].
  apply H2. discriminate.
Defined.

End ConstructorFacts.

(** ** TransDatabase: [save] and [fromfile] *)

Module FileFacts.
Import Spec.
Import TransDatabase.
Import ListOps.
Import DatabaseOps.












Section Library.

Variable builtin_str : value -> string.
Variable json_dumps : value -> result string.
Variable json_loads : string -> result value.
Variable xlsx_save : state -> string -> filesystem -> result filesystem.








End Library.




End FileFacts.

(** ** TransDatabase: loading a workbook *)

Module WorkbookFacts.
Import Spec.
Import TransDatabase.
Import DatabaseOps.
Import FileFacts.




Section Library.

Variable builtin_str : value -> string.
Variable json_loads : string -> result value.


End Library.


End WorkbookFacts.

(** ** TransDatabase.change_lang_attrs *)

Module InfoFacts.
Import Spec.
Import TransDatabase.

(** X18: [change_lang_attrs] touches [info] only: the lists stay as they
    are; a refused call (a [TypeError] or [ValueError] of [TransPair])
    changes nothing; after a successful one the two language identifiers
    read back are the ones given. *)
Theorem change_lang_attrs_spec (fl sl : value) (d d' : state)
  (r : result unit) :
  change_lang_attrs fl sl d = (r, d') ->
  items d' = items d
  /\ (r <> Ok tt -> d' = d)
  /\ (r = Ok tt -> languages d' = Ok (fl, sl)).
Proof.
  unfold change_lang_attrs.
  destruct (TransPair.init fl sl) as [tp | e] eqn:Ei; cbn [bind].
  - destruct (store_str (info d) LANGS tp) as [info' | e] eqn:Es;
      intros H; injection H as <- <-; cbn [items].
    + split; [reflexivity |].
      split; [intros Hc; contradiction Hc; reflexivity |]. intros _.
      unfold store_str in Es. destruct (info d); try discriminate.
      injection Es as <-. unfold languages. cbn [info getitem_str].
      rewrite assoc_dict_set_same. cbn [bind].
      unfold TransPair.init in Ei.
      destruct (negb (isinstance_str fl) && negb (isinstance_str sl));
        [discriminate |].
      destruct (py_eq (py_and fl sl) (VStr EmptyString)); [discriminate |].
      injection Ei as <-. reflexivity.
    + split; [reflexivity |]. split; [reflexivity | discriminate].
  - intros H. injection H as <- <-.
    split; [reflexivity |]. split; [reflexivity | discriminate].
Qed.

Lemma change_lang_attrs_spec_witness :
  let d := database_of sample_content sample_meta in
  let d' := snd (change_lang_attrs (VStr "FR") (VStr "IT") d) in
  change_lang_attrs (VStr "FR") (VStr "IT") d = (Ok tt, d')
  /\ items d' = items d
  /\ languages d' = Ok (VStr "FR", VStr "IT").
Proof.
  intros d d'.
  assert (H : change_lang_attrs (VStr "FR") (VStr "IT") d = (Ok tt, d'))
    by reflexivity.
  destruct (change_lang_attrs_spec (VStr "FR") (VStr "IT") d d' (Ok tt) H)
    as (H1 & _ & H2).
  split; [exact H |]. split; [exact H1 | exact (H2 eq_refl)].
Defined.

End InfoFacts.
